(** * Voice Emotion Recognition Service: the predict endpoint

    A shallow embedding of [app/main.py] (the FastAPI service around the
    SpeechBrain classifier) and the properties of its [/predict] handler.

    Conventions of the embedding:
    - Python [str] is [string]; a character is a code point below 256, so
      [str.strip] and [str.lower] are the Latin-1 restriction of CPython's.
    - Python [float] is a binary64 primitive float.
    - An object of the external classifier is represented by what the
      handler observes of it: which attributes it has and what the calls
      made on it return or raise.
    - Exceptions are the instances of [Exception]; signals that derive from
      [BaseException] only (KeyboardInterrupt, SystemExit) are not modelled.
    - The handler runs in a state-and-exception monad over the temp
      directory and a trace of the effects performed. *)

From Stdlib Require Import String Ascii ZArith List Bool Arith Lia.
From Stdlib Require Import PrimFloat.
From stdpp Require Import base option gmap strings.

Set Warnings "-inexact-float".
Local Open Scope string_scope.
Import ListNotations.

(** ** Python strings *)

Module PyStr.

(** [ch.isspace()] for a code point below 256: the ASCII table of CPython
    (TAB..CR, FS..US, space) plus NEL and NBSP. *)
Definition is_space (c : ascii) : bool :=
  let n := nat_of_ascii c in
  (Nat.leb 9 n && Nat.leb n 13) || (Nat.leb 28 n && Nat.leb n 32)
  || Nat.eqb n 133 || Nat.eqb n 160.

(** [ch.lower()] for a code point below 256: A..Z and the Latin-1 capitals
    (all of 0xC0..0xDE but the multiplication sign) move up by 32. *)
Definition lower_char (c : ascii) : ascii :=
  let n := nat_of_ascii c in
  if (Nat.leb 65 n && Nat.leb n 90)
     || (Nat.leb 192 n && Nat.leb n 222 && negb (Nat.eqb n 215))
  then ascii_of_nat (n + 32) else c.

Fixpoint lower (s : string) : string :=
  match s with
  | EmptyString => EmptyString
  | String c s' => String (lower_char c) (lower s')
  end.

Fixpoint lstrip_by (p : ascii -> bool) (s : string) : string :=
  match s with
  | EmptyString => EmptyString
  | String c s' => if p c then lstrip_by p s' else s
  end.

Fixpoint rstrip_by (p : ascii -> bool) (s : string) : string :=
  match s with
  | EmptyString => EmptyString
  | String c s' =>
      match rstrip_by p s' with
      | EmptyString => if p c then EmptyString else String c EmptyString
      | r => String c r
      end
  end.

Definition strip_by (p : ascii -> bool) (s : string) : string :=
  rstrip_by p (lstrip_by p s).

(** [s.strip()] *)
Definition strip (s : string) : string := strip_by is_space s.

Fixpoint mem_char (c : ascii) (chars : string) : bool :=
  match chars with
  | EmptyString => false
  | String d chars' => Ascii.eqb c d || mem_char c chars'
  end.

(** [s.strip(chars)] *)
Definition strip_chars (chars : string) (s : string) : string :=
  strip_by (fun c => mem_char c chars) s.

(** [x in xs] for a list of strings. *)
Definition mem (x : string) (xs : list string) : bool :=
  existsb (String.eqb x) xs.

(** [needle in hay] for strings. *)
Fixpoint contains (needle hay : string) : bool :=
  String.prefix needle hay ||
  match hay with
  | EmptyString => false
  | String _ hay' => contains needle hay'
  end.

End PyStr.

(** ** The label vocabulary (main.py, lines 36-37 and 122-146) *)

(** [EMOTION_LABELS] *)
Definition EMOTION_LABELS : list string := ["angry"; "happy"; "neutral"; "sad"].

(** The dict literal [emotion_mapping] of the handler. *)
Definition emotion_mapping_items : list (string * string) :=
  [ ("hap", "happy");
    ("sad", "sad");
    ("ang", "angry");
    ("neu", "neutral");
    ("exc", "happy");
    ("fru", "sad");
    ("fea", "sad");
    ("sur", "happy");
    ("xxx", "neutral") ].

Definition emotion_mapping : gmap string string :=
  list_to_map emotion_mapping_items.

(** The characters of the argument of the second strip: the two brackets,
    the single quote and the double quote. *)
Definition bracket_quote_chars : string :=
  String "[" (String "]" (String "'" (String "034"%char EmptyString))).

(** Line 123: [emotion_raw.strip().strip(chars)]. *)
Definition clean_label (emotion_raw : string) : string :=
  PyStr.strip_chars bracket_quote_chars (PyStr.strip emotion_raw).

(** Lines 139-142: the verbatim match, then the table looked up at the
    lowercased text with the text itself as the default. *)
Definition map_label (emotion_raw : string) : string :=
  if PyStr.mem emotion_raw EMOTION_LABELS then emotion_raw
  else default emotion_raw (emotion_mapping !! PyStr.lower emotion_raw).

(** Lines 145-146. *)
Definition ensure_valid (emotion : string) : string :=
  if PyStr.mem emotion EMOTION_LABELS then emotion else "neutral".

(** Lines 123-146 together: from the extracted text to the emotion. *)
Definition emotion_of_raw (emotion_raw : string) : string :=
  ensure_valid (map_label (clean_label emotion_raw)).

(** ** Exceptions and results *)

(** An exception: the [HTTPException] of FastAPI with its status and detail,
    or any other [Exception], given by its class name and the text [str(e)]
    returns for it. *)
Inductive exn :=
| HTTPException (status_code : Z) (detail : string)
| PyException (cls : string) (msg : string).

(** A computation that returns or raises. *)
Definition result (A : Type) : Type := exn + A.

Definition Raise {A} (e : exn) : result A := inl e.
Definition Return {A} (a : A) : result A := inr a.

Definition rbind {A B} (r : result A) (k : A -> result B) : result B :=
  match r with
  | inl e => inl e
  | inr a => k a
  end.

(** ** What the classifier returns, as the handler observes it *)

Inductive seq_kind := PyList | PyTuple.

(** The classes of the numbers [item()] returns for a tensor or a numeric
    array; none of them has a [strip] attribute. *)
Inductive number_class := ClsInt | ClsFloat | ClsBool | ClsComplex.

(** [type(x).__name__] *)
Definition class_name (cls : number_class) : string :=
  match cls with
  | ClsInt => "int"
  | ClsFloat => "float"
  | ClsBool => "bool"
  | ClsComplex => "complex"
  end.

(** What [text_lab.item()] returns: a [str], a [bytes] (which has a [strip]
    method, on bytes arguments only), or a number. *)
Inductive item_value :=
| ItemStr (s : string)
| ItemBytes (b : string)
| ItemNumber (cls : number_class).

(** [text_lab], by the branch of lines 115-120 it takes: an object with an
    [item] attribute and what the call returns or raises; a list or tuple,
    each element given by the text [str] returns for it; anything else,
    given by the text [str] returns for it. *)
Inductive text_lab_t :=
| LabScalarLike (item : result item_value)
| LabSeq (kind : seq_kind) (elems : list string)
| LabOther (text : string).

(** [score], by the branch of lines 149-152: with an [item] attribute and
    what [float(score.item())] evaluates to, or without and what
    [float(score)] evaluates to. *)
Inductive score_t :=
| ScoreScalarLike (item_as_float : result float)
| ScorePlain (as_float : result float).

(** A numpy array: its shape and its elements in row-major order. *)
Record ndarray := { shape : list nat; data : list float }.

Definition wf_ndarray (a : ndarray) : Prop :=
  length (data a) = fold_right Nat.mul 1 (shape a).

(** [out_prob], by the branch of lines 155-161: an object with a [numpy]
    attribute and what the call returns or raises; a [torch.Tensor] without
    that attribute, given by its contents and what [numpy()] does on it;
    anything else. *)
Inductive out_prob_t :=
| ProbNumpyLike (numpy : result ndarray)
| ProbTensor (numpy : result ndarray)
| ProbOther.

(** The 4-tuple [classify_file] returns. *)
Record classifier_output := {
  out_prob : out_prob_t;
  score : score_t;
  index : Z;
  text_lab : text_lab_t
}.

(** ** Normalization of the output (lines 113-169) *)

(** Lines 115-120, followed by what the two [strip] calls of line 123 raise
    on an extracted value that is not a [str]. *)
Definition extract_label (text_lab : text_lab_t) : result string :=
  match text_lab with
  | LabScalarLike item =>
      rbind item (fun v =>
        match v with
        | ItemStr s => Return s
        | ItemBytes _ =>
            Raise (PyException "TypeError"
                     "a bytes-like object is required, not 'str'")
        | ItemNumber cls =>
            Raise (PyException "AttributeError"
                     ("'" ++ class_name cls ++ "' object has no attribute 'strip'"))
        end)
  | LabSeq _ elems =>
      match elems with
      | e :: _ => Return e
      | [] => Return "neutral"
      end
  | LabOther text => Return text
  end.

(** Lines 149-152. *)
Definition extract_confidence (score : score_t) : result float :=
  match score with
  | ScoreScalarLike r => r
  | ScorePlain r => r
  end.

(** [a.squeeze()]: the axes of length one are dropped. *)
Definition squeeze (a : ndarray) : ndarray :=
  {| shape := List.filter (fun d => negb (Nat.eqb d 1)) (shape a);
     data := data a |}.

(** [np.array([0.25] * len(EMOTION_LABELS))] *)
Definition uniform_scores : ndarray :=
  {| shape := [length EMOTION_LABELS];
     data := repeat 0.25%float (length EMOTION_LABELS) |}.

(** Lines 155-161. *)
Definition extract_scores_array (out_prob : out_prob_t) : result ndarray :=
  match out_prob with
  | ProbNumpyLike r => rbind r (fun a => Return (squeeze a))
  | ProbTensor r => rbind r (fun a => Return (squeeze a))
  | ProbOther => Return uniform_scores
  end.

(** [len(a)] *)
Definition array_len (a : ndarray) : result nat :=
  match shape a with
  | [] => Raise (PyException "TypeError" "len() of unsized object")
  | n :: _ => Return n
  end.

(** [float(a[i])] for [i] below [len(a)]: the element of a one-dimensional
    array; a row of an array of more dimensions is not a scalar (the wording
    of that TypeError varies with the numpy release). *)
Definition float_at (a : ndarray) (i : nat) : result float :=
  match shape a with
  | [_] =>
      match nth_error (data a) i with
      | Some x => Return x
      | None => Raise (PyException "IndexError" "index out of bounds")
      end
  | _ =>
      Raise (PyException "TypeError"
               "only length-1 arrays can be converted to Python scalars")
  end.

(** [d[k] = v] on a dict kept in insertion order. *)
Fixpoint dict_set (d : list (string * float)) (k : string) (v : float)
  : list (string * float) :=
  match d with
  | [] => [(k, v)]
  | (k', v') :: d' =>
      if String.eqb k' k then (k', v) :: d' else (k', v') :: dict_set d' k v
  end.

(** Lines 165-169: the loop over [enumerate(labels)] from index [i] on. *)
Fixpoint fill_scores (a : ndarray) (i : nat) (labels : list string)
    (emotion_scores : list (string * float)) : result (list (string * float)) :=
  match labels with
  | [] => Return emotion_scores
  | label :: labels' =>
      rbind (array_len a) (fun n =>
        rbind (if Nat.ltb i n then float_at a i else Return 0%float) (fun v =>
          fill_scores a (S i) labels' (dict_set emotion_scores label v)))
  end.

(** The JSON object of a successful response. *)
Record prediction := {
  emotion : string;
  confidence : float;
  scores : list (string * float)
}.

(** Lines 113-169, in the order the handler evaluates them. *)
Definition normalize_output (out : classifier_output) : result prediction :=
  rbind (extract_label (text_lab out)) (fun emotion_raw =>
    let emotion := emotion_of_raw emotion_raw in
    rbind (extract_confidence (score out)) (fun confidence =>
      rbind (extract_scores_array (out_prob out)) (fun scores_array =>
        rbind (fill_scores scores_array 0 EMOTION_LABELS []) (fun emotion_scores =>
          Return {| emotion := emotion;
                    confidence := confidence;
                    scores := emotion_scores |})))).

(** ** The world of the handler: temp directory and effect trace *)

(** A file of the temp directory. A locked file cannot be removed (a
    directory without write permission, a handle still open on Windows). *)
Record file := { contents : string; locked : bool }.

Inductive event :=
| EvRead
| EvTempFile (path : string)
| EvClassify (path : string)
| EvUnlink (path : string)
| EvLogInfo (emotion : string) (confidence : float)
| EvLogError (msg : string).

Record world := { fs : gmap string file; trace : list event }.

(** State and exceptions: a computation runs in a world and returns or
    raises, in a new world. *)
Definition M (A : Type) : Type := world -> result A * world.

Definition ret {A} (a : A) : M A := fun w => (Return a, w).
Definition raise {A} (e : exn) : M A := fun w => (Raise e, w).

Definition bind {A B} (m : M A) (k : A -> M B) : M B := fun w =>
  match m w with
  | (inl e, w1) => (inl e, w1)
  | (inr a, w1) => k a w1
  end.

Notation "'let*' x ':=' c 'in' k" := (bind c (fun x => k))
  (at level 10, x name, c at level 100, k at level 200).

Definition lift {A} (r : result A) : M A := fun w => (r, w).

Definition emit (ev : event) : M unit := fun w =>
  (Return tt, {| fs := fs w; trace := trace w ++ [ev] |}).

(** [try: body finally: fin]: [fin] runs whatever [body] did; an exception
    of [fin] replaces the outcome of [body]. *)
Definition try_finally {A} (body : M A) (fin : M unit) : M A := fun w =>
  match body w with
  | (r, w1) =>
      match fin w1 with
      | (inl e, w2) => (inl e, w2)
      | (inr _, w2) => (r, w2)
      end
  end.

(** [try: body except ... as e: handler e] *)
Definition try_except {A} (body : M A) (handler : exn -> M A) : M A := fun w =>
  match body w with
  | (inl e, w1) => handler e w1
  | (inr a, w1) => (inr a, w1)
  end.

(** The loaded model: [classify_file] may raise and may touch the temp
    directory. *)
Record classifier_t := {
  classify_file :
    string -> gmap string file -> result classifier_output * gmap string file
}.

(** One call of the endpoint: what [await audio_file.read()] gives, and the
    name [tempfile] picks for the scratch file, without its suffix. *)
Record request := { upload : result string; temp_prefix : string }.

(** The name of the scratch file: [suffix=".wav"]. *)
Definition wav_path (prefix : string) : string := prefix ++ ".wav".

(** Line 101. *)
Definition read_upload (req : request) : M string :=
  let* _ := emit EvRead in lift (upload req).

(** Lines 104-106: a new file [prefix.wav] holding the upload; when no name
    is free [tempfile] raises FileExistsError. *)
Definition named_temporary_file (prefix contents : string) : M string := fun w =>
  let path := wav_path prefix in
  match fs w !! path with
  | Some _ =>
      (Raise (PyException "FileExistsError"
                "[Errno 17] No usable temporary file name found"), w)
  | None =>
      (Return path,
       {| fs := <[path := {| contents := contents; locked := false |}]> (fs w);
          trace := trace w ++ [EvTempFile path] |})
  end.

(** Line 111. *)
Definition call_classify_file (clf : classifier_t) (path : string)
  : M classifier_output := fun w =>
  match classify_file clf path (fs w) with
  | (r, fs') => (r, {| fs := fs'; trace := trace w ++ [EvClassify path] |})
  end.

(** What [os.unlink(path)] does in a temp directory: the directory without
    the file, or the error of the system call. *)
Definition unlink_fs (path : string) (dir : gmap string file)
  : result (gmap string file) :=
  match dir !! path with
  | None =>
      Raise (PyException "FileNotFoundError"
               ("[Errno 2] No such file or directory: '" ++ path ++ "'"))
  | Some f =>
      if locked f then
        Raise (PyException "PermissionError"
                 ("[Errno 13] Permission denied: '" ++ path ++ "'"))
      else Return (delete path dir)
  end.

(** [os.unlink(path)] *)
Definition os_unlink (path : string) : M unit := fun w =>
  let t := (trace w ++ [EvUnlink path])%list in
  match unlink_fs path (fs w) with
  | inl e => (inl e, {| fs := fs w; trace := t |})
  | inr dir => (inr tt, {| fs := dir; trace := t |})
  end.

(** ** The handler (lines 77-189) *)

Definition model_not_loaded : string :=
  "Model not loaded. Service is initializing or failed to load model.".

(** Lines 108-180: inference, normalization and the log line, with the
    removal of the scratch file in the [finally]. *)
Definition classify_and_normalize (clf : classifier_t) (temp_path : string)
  : M prediction :=
  try_finally
    (let* out := call_classify_file clf temp_path in
     let* p := lift (normalize_output out) in
     let* _ := emit (EvLogInfo (emotion p) (confidence p)) in
     ret p)
    (os_unlink temp_path).

(** Lines 182-189. *)
Definition on_exception (e : exn) : M prediction :=
  match e with
  | HTTPException _ _ => raise e
  | PyException _ msg =>
      let* _ := emit (EvLogError ("Prediction error: " ++ msg)) in
      raise (HTTPException 500 ("Prediction failed: " ++ msg))
  end.

Definition predict_emotion (classifier : option classifier_t) (req : request)
  : M prediction :=
  match classifier with
  | None => raise (HTTPException 503 model_not_loaded)
  | Some clf =>
      try_except
        (let* contents := read_upload req in
         let* temp_path := named_temporary_file (temp_prefix req) contents in
         classify_and_normalize clf temp_path)
        on_exception
  end.

(** ** The HTTP response FastAPI sends *)

Inductive body_t :=
| BodyPrediction (p : prediction)
| BodyDetail (detail : string).

Record http_response := { status : Z; body : body_t }.

Definition ok_response (p : prediction) : http_response :=
  {| status := 200; body := BodyPrediction p |}.

Definition error_response (code : Z) (detail : string) : http_response :=
  {| status := code; body := BodyDetail detail |}.

(** The floats [json.dumps(..., allow_nan=False)] accepts: neither nan nor
    an infinity. *)
Definition json_compliant (p : prediction) : bool :=
  PrimFloat.is_finite (confidence p)
  && forallb (fun kv => PrimFloat.is_finite (snd kv)) (scores p).

(** The returned dict is rendered as JSON and sent with status 200, unless
    one of its floats is not JSON compliant: the rendering then raises and
    the answer is a bare 500. An [HTTPException] is sent with its status
    and detail; an exception that escaped the handler would be a bare 500
    too. *)
Definition to_response (r : result prediction) : http_response :=
  match r with
  | inr p =>
      if json_compliant p then ok_response p
      else error_response 500 "Internal Server Error"
  | inl (HTTPException code detail) => error_response code detail
  | inl (PyException _ _) => error_response 500 "Internal Server Error"
  end.

(** [POST /predict] *)
Definition post_predict (classifier : option classifier_t) (req : request)
    (w : world) : http_response * world :=
  match predict_emotion classifier req w with
  | (r, w') => (to_response r, w')
  end.

(** ** The write of the scratch file *)

(** What [temp_file.write(contents)] and the close that ends the [with]
    block do: they go through, or one of them raises [e] after [written]
    reached the file. *)
Inductive write_outcome :=
| WriteOk
| WriteFails (e : exn) (written : string).

(** Lines 104-106 with the outcome of the write. The file exists from its
    creation on ([delete=False]): a failed write leaves it in place. *)
Definition named_temporary_file_io (wr : write_outcome)
    (prefix contents : string) : M string := fun w =>
  let path := wav_path prefix in
  match fs w !! path with
  | Some _ =>
      (Raise (PyException "FileExistsError"
                "[Errno 17] No usable temporary file name found"), w)
  | None =>
      match wr with
      | WriteOk =>
          (Return path,
           {| fs := <[path := {| contents := contents; locked := false |}]> (fs w);
              trace := trace w ++ [EvTempFile path] |})
      | WriteFails e written =>
          (Raise e,
           {| fs := <[path := {| contents := written; locked := false |}]> (fs w);
              trace := trace w ++ [EvTempFile path] |})
      end
  end.

(** The handler with the outcome of the write: lines 93-189. *)
Definition predict_emotion_io (wr : write_outcome)
    (classifier : option classifier_t) (req : request) : M prediction :=
  match classifier with
  | None => raise (HTTPException 503 model_not_loaded)
  | Some clf =>
      try_except
        (let* contents := read_upload req in
         let* temp_path :=
           named_temporary_file_io wr (temp_prefix req) contents in
         classify_and_normalize clf temp_path)
        on_exception
  end.

(** ** Vocabulary of the statements *)

(** The path of the scratch file of a call. *)
Definition temp_path (req : request) : string := wav_path (temp_prefix req).

(** The temp directory once the upload [bytes] has been written out. *)
Definition fs_with_upload (req : request) (w : world) (bytes : string)
  : gmap string file :=
  <[temp_path req := {| contents := bytes; locked := false |}]> (fs w).

(** The call gets to line 111, where [classify_file] returns or raises [r]
    and leaves the temp directory as [dir]. *)
Definition reaches_inference (clf : classifier_t) (req : request) (w : world)
    (r : result classifier_output) (dir : gmap string file) : Prop :=
  exists bytes,
    upload req = inr bytes /\
    fs w !! temp_path req = None /\
    classify_file clf (temp_path req) (fs_with_upload req w bytes) = (r, dir).

(** What the [except] clauses make of the outcome of the [try] block. *)
Definition reported (r : result prediction) : result prediction :=
  match r with
  | inl (PyException _ msg) => inl (HTTPException 500 ("Prediction failed: " ++ msg))
  | _ => r
  end.

(** The log lines of a call after inference: the info line of a normalized
    prediction, the error line of what the handler caught. *)
Definition info_line (r : result prediction) : list event :=
  match r with
  | inr p => [EvLogInfo (emotion p) (confidence p)]
  | inl _ => []
  end.

Definition error_line (r : result prediction) : list event :=
  match r with
  | inl (PyException _ msg) => [EvLogError ("Prediction error: " ++ msg)]
  | _ => []
  end.

(** The value the loop stores for index [i] of an array of length [n]. *)
Definition score_at (a : ndarray) (n i : nat) : result float :=
  if Nat.ltb i n then float_at a i else Return 0%float.

(** A float within [0, 1]. *)
Definition in_unit_interval (x : float) : bool :=
  PrimFloat.leb 0%float x && PrimFloat.leb x 1%float.

(** The detail of an error response. *)
Definition detail_of (resp : http_response) : string :=
  match body resp with
  | BodyDetail d => d
  | BodyPrediction _ => EmptyString
  end.

(** An exception occurs during the upload read, the inference or the
    normalization of a call. The last argument is the temp directory the
    [finally] finds, when the call got that far. *)
Inductive processing_failure (clf : classifier_t) (req : request) (w : world)
    (e : exn) : option (gmap string file) -> Prop :=
| fail_read :
    upload req = inl e ->
    processing_failure clf req w e None
| fail_inference dir :
    reaches_inference clf req w (inl e) dir ->
    processing_failure clf req w e (Some dir)
| fail_normalization out dir :
    reaches_inference clf req w (inr out) dir ->
    normalize_output out = inl e ->
    processing_failure clf req w e (Some dir).

(** The text of the exception the [finally] raises, if it does. *)
Definition cleanup_error (path : string) (cleanup : option (gmap string file))
  : option string :=
  match cleanup with
  | Some dir =>
      match unlink_fs path dir with
      | inl (PyException _ msg) => Some msg
      | _ => None
      end
  | None => None
  end.

(** ** Concrete calls *)

Module Scenario.

Definition w0 : world := {| fs := ∅; trace := [] |}.

Definition req1 : request :=
  {| upload := Return "RIFF"; temp_prefix := "/tmp/tmpk3x9" |}.

Definition vector4 : ndarray :=
  {| shape := [4]; data := [0.82; 0.05; 0.08; 0.05]%float |}.

(** The label as plain text, the score as a plain float. *)
Definition hap_plain : classifier_output :=
  {| out_prob := ProbNumpyLike (Return vector4);
     score := ScorePlain (Return 0.82%float);
     index := 0;
     text_lab := LabOther "hap" |}.

(** What SpeechBrain returns: a batch of one, the label in a list. *)
Definition hap_batch : classifier_output :=
  {| out_prob :=
       ProbNumpyLike (Return {| shape := [1; 4]; data := data vector4 |});
     score := ScoreScalarLike (Return 0.82%float);
     index := 0;
     text_lab := LabSeq PyList ["hap"] |}.

(** A top score that is not a probability. *)
Definition overconfident : classifier_output :=
  {| out_prob := ProbNumpyLike (Return vector4);
     score := ScorePlain (Return 1.5%float);
     index := 0;
     text_lab := LabOther "hap" |}.

(** The label comes as an integer tensor. *)
Definition tensor_label : classifier_output :=
  {| out_prob := ProbNumpyLike (Return vector4);
     score := ScorePlain (Return 0.82%float);
     index := 0;
     text_lab := LabScalarLike (Return (ItemNumber ClsInt)) |}.

(** No label, no usable score vector. *)
Definition empty_label (kind : seq_kind) : classifier_output :=
  {| out_prob := ProbOther;
     score := ScorePlain (Return 0.5%float);
     index := 0;
     text_lab := LabSeq kind [] |}.

(** A score vector of two entries. *)
Definition short_vector : classifier_output :=
  {| out_prob :=
       ProbNumpyLike (Return {| shape := [2]; data := [0.7; 0.3]%float |});
     score := ScorePlain (Return 0.7%float);
     index := 0;
     text_lab := LabOther "xyz" |}.

Definition returning (out : classifier_output) : classifier_t :=
  {| classify_file := fun _ dir => (Return out, dir) |}.

(** Inference fails after the scratch file was removed under it. *)
Definition removing_then_raising (e : exn) : classifier_t :=
  {| classify_file := fun path dir => (Raise e, delete path dir) |}.

(** Inference fails and leaves the scratch file held. *)
Definition holding_then_raising (e : exn) : classifier_t :=
  {| classify_file := fun path dir =>
       (Raise e,
        alter (fun f => {| contents := contents f; locked := true |}) path dir) |}.

(** Inference returns after the scratch file was removed under it. *)
Definition removing_then_returning (out : classifier_output) : classifier_t :=
  {| classify_file := fun path dir => (Return out, delete path dir) |}.

Definition boom : exn := PyException "RuntimeError" "boom".

End Scenario.

(** ** Settings (config.py) *)

(** The fields of [Settings]. *)
Record Settings := {
  model_cache_dir : string;
  max_file_size : Z;
  timeout : Z;
  log_level : string
}.

(** [settings = Settings()] with no override from the environment: the
    defaults of the class. *)
Definition settings : Settings :=
  {| model_cache_dir := "/app/models";
     max_file_size := 10 * 1024 * 1024;
     timeout := 30;
     log_level := "INFO" |}.

(** ** Startup, health and root (main.py, lines 33-74 and 192-203) *)

(** An exception of the startup collaborators: its class and [str(e)]. *)
Record py_error := { err_cls : string; err_msg : string }.

(** What the startup hook calls: [os.makedirs(path, exist_ok=True)], the
    import of line 51, and [foreign_class] with its four keyword arguments
    (source, pymodule_file, classname, savedir). *)
Record startup_env := {
  makedirs : string -> py_error + unit;
  import_interfaces : py_error + unit;
  foreign_class : string -> string -> string -> string -> py_error + classifier_t
}.

Inductive log_record :=
| LogInfo (msg : string)
| LogError (msg : string).

(** The module-level state: the global [classifier] and the log. *)
Record app_state := {
  classifier : option classifier_t;
  app_log : list log_record
}.

(** The module as imported: [classifier = None]. *)
Definition initial_state : app_state := {| classifier := None; app_log := [] |}.

(** The body of the [try] of lines 44-60, up to the assignment. *)
Definition materialize (cfg : Settings) (env : startup_env)
  : py_error + classifier_t :=
  match makedirs env (model_cache_dir cfg) with
  | inl e => inl e
  | inr _ =>
      match import_interfaces env with
      | inl e => inl e
      | inr _ =>
          foreign_class env
            "speechbrain/emotion-recognition-wav2vec2-IEMOCAP"
            "custom_interface.py"
            "CustomEncoderWav2vec2Classifier"
            (model_cache_dir cfg)
      end
  end.

(** Lines 40-64. *)
Definition load_model (cfg : Settings) (env : startup_env) (st : app_state)
  : app_state :=
  let started :=
    (app_log st ++ [LogInfo "Loading SpeechBrain emotion recognition model..."])%list in
  match materialize cfg env with
  | inr c =>
      {| classifier := Some c;
         app_log := (started ++ [LogInfo "Model loaded successfully"])%list |}
  | inl e =>
      {| classifier := None;
         app_log :=
           (started ++ [LogError ("Failed to load model: " ++ err_msg e)])%list |}
  end.

(** [classifier is not None] *)
Definition is_not_None {A} (x : option A) : bool :=
  match x with
  | Some _ => true
  | None => false
  end.

(** The dict of [health_check]. *)
Record health_body := {
  health_status : string;
  health_model_loaded : bool;
  health_service : string
}.

(** Lines 67-74. *)
Definition health_check (st : app_state) : health_body :=
  {| health_status := "healthy";
     health_model_loaded := is_not_None (classifier st);
     health_service := "voice-emotion-recognition" |}.

(** The dict of [root]. *)
Record root_body := {
  root_service : string;
  root_version : string;
  root_endpoints : list (string * string);
  root_model_loaded : bool
}.

(** Lines 192-203. *)
Definition root (st : app_state) : root_body :=
  {| root_service := "Voice Emotion Recognition API";
     root_version := "1.0.0";
     root_endpoints := [("health", "/health"); ("predict", "/predict")];
     root_model_loaded := is_not_None (classifier st) |}.

(** ** Vocabulary of the statements on texts and vectors *)

(** Every character of [s] satisfies [p]. *)
Fixpoint all_chars (p : ascii -> bool) (s : string) : bool :=
  match s with
  | EmptyString => true
  | String c s' => p c && all_chars p s'
  end.

(** The first character of [s] satisfies [p]. *)
Definition head_is (p : ascii -> bool) (s : string) : bool :=
  match s with
  | EmptyString => false
  | String c _ => p c
  end.

(** The last character of [s] satisfies [p]. *)
Fixpoint last_is (p : ascii -> bool) (s : string) : bool :=
  match s with
  | EmptyString => false
  | String c EmptyString => p c
  | String _ s' => last_is p s'
  end.

(** A bracket or quote of the second strip of line 123. *)
Definition is_wrapper (c : ascii) : bool := PyStr.mem_char c bracket_quote_chars.

(** A character one of the two strips of line 123 removes. *)
Definition is_stripped (c : ascii) : bool := PyStr.is_space c || is_wrapper c.

(** The three ways a call with a loaded model goes: the read fails, the
    scratch name is taken, or the inference is reached. *)
Inductive call_case (clf : classifier_t) (req : request) (w : world) : Prop :=
| case_read_fails e :
    upload req = inl e -> call_case clf req w
| case_name_taken bytes f :
    upload req = inr bytes -> fs w !! temp_path req = Some f ->
    call_case clf req w
| case_inference bytes r dir :
    upload req = inr bytes ->
    reaches_inference clf req w r dir ->
    call_case clf req w.

(** * Properties *)

(** Two traces built by appends are the same list. *)
Ltac trace_eq :=
  cbn; repeat rewrite <- List.app_assoc; cbn;
  repeat rewrite <- List.app_assoc; rewrite ?app_nil_r; reflexivity.

(** ** The handler, unfolded *)

Section Handler.

Variable clf : classifier_t.
Variable req : request.
Variable w : world.

(** The handle is unset: nothing runs. *)
Lemma predict_unloaded :
  predict_emotion None req w = (Raise (HTTPException 503 model_not_loaded), w).
Proof. reflexivity. Qed.

(** The read of the upload raises. *)
Lemma predict_read_fails (e : exn) :
  upload req = inl e ->
  predict_emotion (Some clf) req w =
    (reported (inl e),
     {| fs := fs w; trace := (trace w ++ [EvRead] ++ error_line (inl e))%list |}).
Proof.
  intros Hup.
  unfold predict_emotion, try_except, bind, read_upload, bind, emit, lift.
  cbn. rewrite Hup.
  destruct e as [code d | cls msg]; cbn.
  - reflexivity.
  - unfold bind, emit, raise. trace_eq.
Qed.

(** The call gets to the inference: the whole of lines 108-189. *)
Lemma predict_after_inference (r : result classifier_output)
    (dir : gmap string file) :
  reaches_inference clf req w r dir ->
  let outcome := rbind r normalize_output in
  let t := (trace w
            ++ [EvRead; EvTempFile (temp_path req); EvClassify (temp_path req)]
            ++ info_line outcome ++ [EvUnlink (temp_path req)])%list in
  predict_emotion (Some clf) req w =
    match unlink_fs (temp_path req) dir with
    | inr dir' =>
        (reported outcome,
         {| fs := dir'; trace := (t ++ error_line outcome)%list |})
    | inl e =>
        (reported (inl e),
         {| fs := dir; trace := (t ++ error_line (inl e))%list |})
    end.
Proof.
  intros (bytes & Hup & Hfree & Hcl). cbn zeta.
  unfold predict_emotion, try_except, bind at 1.
  unfold read_upload, bind, emit, lift. cbn. rewrite Hup.
  unfold named_temporary_file. cbn. fold (temp_path req). rewrite Hfree.
  unfold classify_and_normalize, try_finally, bind, call_classify_file. cbn.
  fold (temp_path req). fold (fs_with_upload req w bytes). rewrite Hcl.
  unfold os_unlink, on_exception, reported, bind, emit, raise, ret, lift.
  destruct r as [e | out]; cbn.
  - destruct (unlink_fs (temp_path req) dir) as [[c d | cls msg] | dir'];
      destruct e as [c' d' | cls' msg']; trace_eq.
  - destruct (normalize_output out) as [e | p]; cbn.
    + destruct (unlink_fs (temp_path req) dir) as [[c d | cls msg] | dir'];
        destruct e as [c' d' | cls' msg']; trace_eq.
    + destruct (unlink_fs (temp_path req) dir) as [[c d | cls msg] | dir'];
        trace_eq.
Qed.

End Handler.

(** A successful call went through inference, normalization and cleanup. *)
Lemma predict_success_inv (classifier : option classifier_t) (req : request)
    (w w' : world) (p : prediction) :
  predict_emotion classifier req w = (inr p, w') ->
  exists clf out dir,
    classifier = Some clf /\
    reaches_inference clf req w (inr out) dir /\
    normalize_output out = inr p /\
    unlink_fs (temp_path req) dir = inr (fs w').
Proof.
  intros H. destruct classifier as [clf |]; [| discriminate H].
  destruct (upload req) as [e | bytes] eqn:Hup.
  { rewrite (predict_read_fails clf req w e Hup) in H.
    destruct e; discriminate H. }
  destruct (fs w !! temp_path req) as [f |] eqn:Hfree.
  { unfold predict_emotion, try_except, bind at 1 in H.
    unfold read_upload, bind, emit, lift in H. cbn in H. rewrite Hup in H.
    unfold named_temporary_file in H. cbn in H. fold (temp_path req) in H.
    rewrite Hfree in H. cbn in H. unfold bind, emit, raise in H. cbn in H.
    discriminate H. }
  destruct (classify_file clf (temp_path req) (fs_with_upload req w bytes))
    as [r dir] eqn:Hcl.
  assert (Hreach : reaches_inference clf req w r dir) by (exists bytes; auto).
  pose proof (predict_after_inference clf req w r dir Hreach) as Hp.
  cbn zeta in Hp. rewrite Hp in H. clear Hp.
  destruct (unlink_fs (temp_path req) dir) as [e | dir'] eqn:Hun.
  { destruct e; discriminate H. }
  destruct r as [e | out]; cbn in H.
  { destruct e; discriminate H. }
  destruct (normalize_output out) as [e | p'] eqn:Hn; cbn in H.
  { destruct e; discriminate H. }
  injection H as -> <-.
  exists clf, out, dir. cbn. auto.
Qed.

(** ** Labels *)

Lemma mem_true_iff (s : string) (l : list string) :
  PyStr.mem s l = true <-> s ∈ l.
Proof.
  unfold PyStr.mem. rewrite existsb_exists, list_elem_of_In. split.
  - intros (x & Hx & Heq). apply String.eqb_eq in Heq. subst x. exact Hx.
  - intros Hs. exists s. split; [exact Hs | apply String.eqb_refl].
Qed.

Lemma mem_false_iff (s : string) (l : list string) :
  PyStr.mem s l = false <-> s ∉ l.
Proof.
  rewrite <- mem_true_iff. destruct (PyStr.mem s l); split; intros H;
    try discriminate; try reflexivity; try (intros H'; discriminate H').
  exfalso. apply H. reflexivity.
Qed.

Lemma ensure_valid_canonical (s : string) : ensure_valid s ∈ EMOTION_LABELS.
Proof.
  unfold ensure_valid. destruct (PyStr.mem s EMOTION_LABELS) eqn:Hm.
  - apply mem_true_iff. exact Hm.
  - apply mem_true_iff. reflexivity.
Qed.

Lemma ensure_valid_unknown (s : string) :
  s ∉ EMOTION_LABELS -> ensure_valid s = "neutral".
Proof.
  intros H. apply mem_false_iff in H. unfold ensure_valid. rewrite H. reflexivity.
Qed.

Lemma mapping_miss (k : string) :
  k ∉ emotion_mapping_items.*1 -> emotion_mapping !! k = None.
Proof. intros H. apply not_elem_of_list_to_map_1. exact H. Qed.

(** A miss of both lookups leaves the text as it is. *)
Lemma map_label_miss (s : string) :
  s ∉ EMOTION_LABELS -> PyStr.lower s ∉ emotion_mapping_items.*1 ->
  map_label s = s.
Proof.
  intros Hs Hk. unfold map_label.
  apply mem_false_iff in Hs. rewrite Hs, (mapping_miss _ Hk). reflexivity.
Qed.

Lemma emotion_of_raw_canonical (raw : string) :
  emotion_of_raw raw ∈ EMOTION_LABELS.
Proof. apply ensure_valid_canonical. Qed.

Lemma rbind_inr {A B} (r : result A) (k : A -> result B) (b : B) :
  rbind r k = inr b -> exists a, r = inr a /\ k a = inr b.
Proof.
  destruct r as [e | a]; cbn; intros H; [discriminate H |].
  exists a. split; [reflexivity | exact H].
Qed.

(** A normalized prediction, field by field. *)
Lemma normalize_output_inv (out : classifier_output) (p : prediction) :
  normalize_output out = inr p ->
  exists raw a,
    extract_label (text_lab out) = inr raw /\
    extract_confidence (score out) = inr (confidence p) /\
    extract_scores_array (out_prob out) = inr a /\
    fill_scores a 0 EMOTION_LABELS [] = inr (scores p) /\
    emotion p = emotion_of_raw raw.
Proof.
  unfold normalize_output. intros H.
  apply rbind_inr in H as (raw & Hraw & H).
  apply rbind_inr in H as (c & Hc & H).
  apply rbind_inr in H as (a & Ha & H).
  apply rbind_inr in H as (sc & Hsc & H).
  injection H as <-. exists raw, a. cbn. auto.
Qed.

(** ** The scores mapping *)

Lemma dict_set_fresh (d : list (string * float)) (k : string) (v : float) :
  k ∉ d.*1 -> dict_set d k v = (d ++ [(k, v)])%list.
Proof.
  induction d as [| [k' v'] d IH]; cbn; intros Hk; [reflexivity |].
  apply not_elem_of_cons in Hk as [Hne Hk].
  destruct (String.eqb k' k) eqn:Heq.
  - apply String.eqb_eq in Heq. congruence.
  - rewrite (IH Hk). reflexivity.
Qed.

(** The loop appends one entry per label, in the order of the labels. *)
Lemma fill_scores_zip (a : ndarray) (n : nat) :
  array_len a = inr n ->
  forall (labels : list string) (i : nat) (acc sc : list (string * float)),
    NoDup labels ->
    (forall l, l ∈ labels -> l ∉ acc.*1) ->
    fill_scores a i labels acc = inr sc ->
    exists vs : list float,
      sc = (acc ++ zip labels vs)%list /\
      length vs = length labels /\
      forall j v, vs !! j = Some v -> score_at a n (i + j) = inr v.
Proof.
  intros Hlen labels.
  induction labels as [| label labels IH]; intros i acc sc Hnd Hfresh H.
  - cbn in H. injection H as <-. exists []. cbn. rewrite app_nil_r.
    repeat split. intros j v Hj. discriminate Hj.
  - cbn in H. rewrite Hlen in H. cbn in H.
    apply rbind_inr in H as (v & Hv & H).
    apply NoDup_cons in Hnd as [Hnotin Hnd].
    rewrite dict_set_fresh in H by (apply Hfresh; apply list_elem_of_here).
    apply IH in H as (vs & -> & Hvs & Hat); [| exact Hnd |].
    + exists (v :: vs). cbn. rewrite <- app_assoc. cbn. repeat split.
      * rewrite Hvs. reflexivity.
      * intros [| j] x Hj; cbn in Hj.
        -- injection Hj as <-. rewrite Nat.add_0_r. exact Hv.
        -- rewrite Nat.add_succ_r. apply (Hat j x Hj).
    + intros l Hl. rewrite fmap_app. cbn. intros Hin.
      apply elem_of_app in Hin as [Hin | Hin].
      * apply (Hfresh l); [apply list_elem_of_further; exact Hl | exact Hin].
      * apply list_elem_of_singleton in Hin. subst l. contradiction.
Qed.

Lemma EMOTION_LABELS_NoDup : NoDup EMOTION_LABELS.
Proof.
  unfold EMOTION_LABELS.
  repeat (apply NoDup_cons_2;
          [rewrite <- mem_false_iff; reflexivity |]).
  apply NoDup_nil_2.
Qed.

(** The mapping the loop of lines 164-169 builds. *)
Lemma fill_scores_labels (a : ndarray) (sc : list (string * float)) :
  fill_scores a 0 EMOTION_LABELS [] = inr sc ->
  exists n,
    array_len a = inr n /\
    sc.*1 = EMOTION_LABELS /\
    forall i label, EMOTION_LABELS !! i = Some label ->
      exists v, sc !! i = Some (label, v) /\ score_at a n i = inr v.
Proof.
  intros H.
  destruct (array_len a) as [e | n] eqn:Hlen.
  { cbn in H. rewrite Hlen in H. discriminate H. }
  exists n. split; [reflexivity |].
  destruct (fill_scores_zip a n Hlen EMOTION_LABELS 0 [] sc EMOTION_LABELS_NoDup)
    as (vs & Hsc & Hvs & Hat).
  - intros l _ Hin. cbn in Hin. inversion Hin.
  - exact H.
  - cbn [app] in Hsc. subst sc. split.
    + apply fst_zip. rewrite Hvs. reflexivity.
    + intros i label Hi.
      destruct (vs !! i) as [v |] eqn:Hv.
      * exists v. split; [apply lookup_zip_Some; auto | apply (Hat i v Hv)].
      * apply lookup_ge_None in Hv. apply lookup_lt_Some in Hi. lia.
Qed.

(** ** The reference scenario *)

(** The response to a call that gets to the inference, in terms of
    [post_predict]. *)
Lemma post_predict_success (clf : classifier_t) (req : request) (w : world)
    (out : classifier_output) (dir dir' : gmap string file) (p : prediction) :
  reaches_inference clf req w (inr out) dir ->
  normalize_output out = inr p ->
  json_compliant p = true ->
  unlink_fs (temp_path req) dir = inr dir' ->
  post_predict (Some clf) req w =
    (ok_response p,
     {| fs := dir';
        trace := (trace w
                  ++ [EvRead; EvTempFile (temp_path req);
                      EvClassify (temp_path req);
                      EvLogInfo (emotion p) (confidence p);
                      EvUnlink (temp_path req)])%list |}).
Proof.
  intros Hreach Hnorm Hjson Hun. unfold post_predict.
  rewrite (predict_after_inference clf req w (inr out) dir Hreach).
  cbn [rbind]. rewrite Hnorm, Hun. cbn [reported to_response].
  rewrite Hjson. f_equal. f_equal. trace_eq.
Qed.

(** C1, as the code has it: when the handle is set and the classifier
    returns a label that reads "hap", the top score 0.82 and the score
    vector [0.82, 0.05, 0.08, 0.05], the endpoint answers 200 with emotion
    "happy", confidence 0.82 and the scores in canonical label order, the
    vector being assigned by position: angry 0.82, happy 0.05, neutral 0.08,
    sad 0.05. *)
Theorem C1_hap_scenario (clf : classifier_t) (req : request) (w : world)
    (out : classifier_output) (dir dir' : gmap string file)
    (raw : string) (a : ndarray) :
  reaches_inference clf req w (inr out) dir ->
  extract_label (text_lab out) = inr raw ->
  clean_label raw = "hap" ->
  extract_confidence (score out) = inr 0.82%float ->
  extract_scores_array (out_prob out) = inr a ->
  shape a = [4] ->
  data a = [0.82; 0.05; 0.08; 0.05]%float ->
  unlink_fs (temp_path req) dir = inr dir' ->
  fst (post_predict (Some clf) req w) =
    ok_response {| emotion := "happy";
                   confidence := 0.82;
                   scores := [("angry", 0.82); ("happy", 0.05);
                              ("neutral", 0.08); ("sad", 0.05)]%float |}.
Proof.
  intros Hreach Hraw Hclean Hconf Harr Hshape Hdata Hun.
  erewrite post_predict_success;
    [reflexivity | exact Hreach | | | exact Hun].
  - unfold normalize_output. rewrite Hraw, Hconf, Harr. cbn [rbind].
    unfold emotion_of_raw. rewrite Hclean.
    destruct a as [sh d]. cbn in Hshape, Hdata. subst sh d.
    vm_compute. reflexivity.
  - vm_compute. reflexivity.
Qed.

(** The scenario of C1 with the label and score as plain values, and as
    SpeechBrain wraps them. *)
Lemma C1_hap_scenario_witness :
  fst (post_predict (Some (Scenario.returning Scenario.hap_plain))
         Scenario.req1 Scenario.w0) =
    ok_response {| emotion := "happy";
                   confidence := 0.82;
                   scores := [("angry", 0.82); ("happy", 0.05);
                              ("neutral", 0.08); ("sad", 0.05)]%float |}
  /\
  fst (post_predict (Some (Scenario.returning Scenario.hap_batch))
         Scenario.req1 Scenario.w0) =
    ok_response {| emotion := "happy";
                   confidence := 0.82;
                   scores := [("angry", 0.82); ("happy", 0.05);
                              ("neutral", 0.08); ("sad", 0.05)]%float |}.
Proof.
  split.
  - apply (C1_hap_scenario (Scenario.returning Scenario.hap_plain)
             Scenario.req1 Scenario.w0 Scenario.hap_plain
             (fs_with_upload Scenario.req1 Scenario.w0 "RIFF") ∅
             "hap" Scenario.vector4).
    + exists "RIFF". repeat split.
    + reflexivity.
    + vm_compute. reflexivity.
    + reflexivity.
    + reflexivity.
    + reflexivity.
    + reflexivity.
    + vm_compute. reflexivity.
  - apply (C1_hap_scenario (Scenario.returning Scenario.hap_batch)
             Scenario.req1 Scenario.w0 Scenario.hap_batch
             (fs_with_upload Scenario.req1 Scenario.w0 "RIFF") ∅
             "hap" Scenario.vector4).
    + exists "RIFF". repeat split.
    + reflexivity.
    + vm_compute. reflexivity.
    + reflexivity.
    + reflexivity.
    + reflexivity.
    + reflexivity.
    + vm_compute. reflexivity.
Defined.

(** C1 as stated fails: on the scenario of the claim the response does not
    carry happy 0.82 and angry 0.05; the first entry of the vector goes to
    the first label. *)
Lemma C1_counterexample :
  fst (post_predict (Some (Scenario.returning Scenario.hap_plain))
         Scenario.req1 Scenario.w0) <>
    ok_response {| emotion := "happy";
                   confidence := 0.82;
                   scores := [("angry", 0.05); ("happy", 0.82);
                              ("neutral", 0.08); ("sad", 0.05)]%float |}.
Proof.
  intros H.
  apply (f_equal (fun resp =>
    match body resp with
    | BodyPrediction p =>
        match scores p with
        | (_, v) :: _ => PrimFloat.eqb v 0.82%float
        | [] => false
        end
    | BodyDetail _ => false
    end)) in H.
  vm_compute in H. discriminate H.
Qed.

(** ** Cleanup of the scratch file *)

Lemma unlink_fs_removes (path : string) (dir dir' : gmap string file) :
  unlink_fs path dir = inr dir' -> dir' !! path = None.
Proof.
  unfold unlink_fs. destruct (dir !! path) as [f |]; [| discriminate].
  destruct (locked f); [discriminate |].
  intros H. injection H as <-. apply lookup_delete_eq.
Qed.

Lemma unlink_fs_error (path : string) (dir : gmap string file) (e : exn) :
  unlink_fs path dir = inl e -> exists cls msg, e = PyException cls msg.
Proof.
  unfold unlink_fs. destruct (dir !! path) as [f |].
  - destruct (locked f); [| discriminate].
    intros H. injection H as <-. eauto.
  - intros H. injection H as <-. eauto.
Qed.

(** C2, as the code has it: on every call that gets to the inference,
    [os.unlink] of the scratch file runs once, after the inference and the
    normalization, whether they return or raise. When the unlink succeeds
    the file is gone and the call ends as the inference and normalization
    decided. When the unlink raises, its exception takes the place of that
    outcome, an inference error included, and the temp directory stays as
    the inference left it. *)
Theorem C2_cleanup_on_every_path (clf : classifier_t) (req : request) (w : world)
    (r : result classifier_output) (dir : gmap string file) :
  reaches_inference clf req w r dir ->
  let outcome := rbind r normalize_output in
  let res := fst (predict_emotion (Some clf) req w) in
  let w' := snd (predict_emotion (Some clf) req w) in
  (exists after,
     trace w' =
       (trace w
        ++ [EvRead; EvTempFile (temp_path req); EvClassify (temp_path req)]
        ++ info_line outcome ++ [EvUnlink (temp_path req)] ++ after)%list /\
     EvUnlink (temp_path req) ∉ after) /\
  match unlink_fs (temp_path req) dir with
  | inr dir' =>
      fs w' = dir' /\ fs w' !! temp_path req = None /\ res = reported outcome
  | inl e =>
      fs w' = dir /\ res = reported (inl e)
  end.
Proof.
  intros Hreach. cbn zeta.
  rewrite (predict_after_inference clf req w r dir Hreach).
  destruct (unlink_fs (temp_path req) dir) as [e | dir'] eqn:Hun; cbn.
  - split; [| split; reflexivity].
    exists (error_line (inl e)). split.
    + trace_eq.
    + destruct e as [c d | cls msg]; cbn.
      * apply not_elem_of_nil.
      * apply not_elem_of_cons. split; [discriminate | apply not_elem_of_nil].
  - split; [| repeat split; eapply unlink_fs_removes; exact Hun].
    exists (error_line (rbind r normalize_output)). split.
    + trace_eq.
    + destruct (rbind r normalize_output) as [[c d | cls msg] | p]; cbn.
      * apply not_elem_of_nil.
      * apply not_elem_of_cons. split; [discriminate | apply not_elem_of_nil].
      * apply not_elem_of_nil.
Qed.

(** C2 at a call whose inference raises: the file is removed and the
    inference error is the one reported. *)
Lemma C2_cleanup_on_every_path_witness :
  let clf := {| classify_file := fun _ dir => (Raise Scenario.boom, dir) |} in
  let w' := snd (predict_emotion (Some clf) Scenario.req1 Scenario.w0) in
  fs w' !! temp_path Scenario.req1 = None /\
  fst (predict_emotion (Some clf) Scenario.req1 Scenario.w0) =
    Raise (HTTPException 500 "Prediction failed: boom").
Proof.
  cbn zeta.
  pose proof (C2_cleanup_on_every_path
                {| classify_file := fun _ dir => (Raise Scenario.boom, dir) |}
                Scenario.req1 Scenario.w0 (Raise Scenario.boom)
                (fs_with_upload Scenario.req1 Scenario.w0 "RIFF")) as H.
  cbn zeta in H.
  destruct H as [_ H].
  - exists "RIFF". repeat split.
  - replace (unlink_fs (temp_path Scenario.req1)
               (fs_with_upload Scenario.req1 Scenario.w0 "RIFF"))
      with (@inr exn (gmap string file) ∅) in H by (vm_compute; reflexivity).
    destruct H as (_ & Hgone & Hres). split; [exact Hgone | exact Hres].
Defined.

(** C2 as stated fails. When the scratch file was removed during a failing
    inference, the unlink raises and the response reports the unlink, not
    the inference error; when the file is held, the unlink raises too and
    the file stays. *)
Lemma C2_counterexample :
  (reaches_inference (Scenario.removing_then_raising Scenario.boom)
     Scenario.req1 Scenario.w0 (Raise Scenario.boom) ∅ /\
   fst (post_predict (Some (Scenario.removing_then_raising Scenario.boom))
          Scenario.req1 Scenario.w0) =
     error_response 500
       "Prediction failed: [Errno 2] No such file or directory: '/tmp/tmpk3x9.wav'" /\
   PyStr.contains "boom"
     "Prediction failed: [Errno 2] No such file or directory: '/tmp/tmpk3x9.wav'"
     = false)
  /\
  (fst (post_predict (Some (Scenario.holding_then_raising Scenario.boom))
          Scenario.req1 Scenario.w0) =
     error_response 500
       "Prediction failed: [Errno 13] Permission denied: '/tmp/tmpk3x9.wav'" /\
   is_Some (fs (snd (post_predict (Some (Scenario.holding_then_raising Scenario.boom))
                       Scenario.req1 Scenario.w0))
            !! "/tmp/tmpk3x9.wav")).
Proof.
  split; [split; [| split] | split].
  - exists "RIFF". repeat split.
  - vm_compute. reflexivity.
  - vm_compute. reflexivity.
  - vm_compute. reflexivity.
  - vm_compute. eexists. reflexivity.
Qed.

(** ** The emotion label *)

(** C3: the emotion of a successful response is one of the four canonical
    labels, whatever label text the classifier gave; a text that, once
    cleaned, is neither a canonical label nor (lowercased) a short code of
    the table gives "neutral", as "xyz" does. *)
Theorem C3_emotion_is_canonical :
  (forall raw, emotion_of_raw raw ∈ EMOTION_LABELS) /\
  (forall raw,
     clean_label raw ∉ EMOTION_LABELS ->
     PyStr.lower (clean_label raw) ∉ emotion_mapping_items.*1 ->
     emotion_of_raw raw = "neutral") /\
  emotion_of_raw "xyz" = "neutral" /\
  (forall classifier req w w' p,
     predict_emotion classifier req w = (inr p, w') ->
     emotion p ∈ EMOTION_LABELS /\
     exists clf out dir raw,
       classifier = Some clf /\
       reaches_inference clf req w (inr out) dir /\
       extract_label (text_lab out) = inr raw /\
       emotion p = emotion_of_raw raw).
Proof.
  split; [| split; [| split]].
  - apply emotion_of_raw_canonical.
  - intros raw Hlab Hcode. unfold emotion_of_raw.
    rewrite (map_label_miss _ Hlab Hcode).
    apply ensure_valid_unknown. exact Hlab.
  - vm_compute. reflexivity.
  - intros classifier req w w' p H.
    apply predict_success_inv in H as (clf & out & dir & -> & Hreach & Hnorm & _).
    apply normalize_output_inv in Hnorm as (raw & a & Hraw & _ & _ & _ & Hem).
    split.
    + rewrite Hem. apply emotion_of_raw_canonical.
    + exists clf, out, dir, raw. auto.
Qed.

(** C3 at the label "xyz": unrecognized, and answered with "neutral". *)
Lemma C3_emotion_is_canonical_witness :
  emotion_of_raw "xyz" = "neutral" /\
  (forall p w',
     predict_emotion (Some (Scenario.returning Scenario.short_vector))
       Scenario.req1 Scenario.w0 = (inr p, w') ->
     emotion p ∈ EMOTION_LABELS).
Proof.
  destruct C3_emotion_is_canonical as (_ & Hmiss & _ & Hcall).
  split.
  - apply (Hmiss "xyz").
    + rewrite <- mem_false_iff. vm_compute. reflexivity.
    + rewrite <- mem_false_iff. vm_compute. reflexivity.
  - intros p w' H.
    apply (Hcall (Some (Scenario.returning Scenario.short_vector))
             Scenario.req1 Scenario.w0 w' p H).
Defined.

(** C4: the mapping step leaves each of the four canonical labels as it is
    and sends every short code of the table to its canonical label: hap,
    exc, sur to happy; sad, fru, fea to sad; ang to angry; neu, xxx to
    neutral. The table holds these nine codes and no other. *)
Theorem C4_label_table :
  Forall (fun label => map_label label = label /\ emotion_of_raw label = label)
    ["angry"; "happy"; "neutral"; "sad"] /\
  Forall (fun '(code, label) =>
            emotion_mapping !! code = Some label /\
            map_label code = label /\
            emotion_of_raw code = label)
    [("hap", "happy"); ("exc", "happy"); ("sur", "happy");
     ("sad", "sad"); ("fru", "sad"); ("fea", "sad");
     ("ang", "angry");
     ("neu", "neutral"); ("xxx", "neutral")] /\
  emotion_mapping =
    list_to_map
      [("hap", "happy"); ("exc", "happy"); ("sur", "happy");
       ("sad", "sad"); ("fru", "sad"); ("fea", "sad");
       ("ang", "angry");
       ("neu", "neutral"); ("xxx", "neutral")] /\
  EMOTION_LABELS = ["angry"; "happy"; "neutral"; "sad"].
Proof.
  split; [| split; [| split]].
  - repeat constructor; vm_compute; reflexivity.
  - repeat constructor; vm_compute; reflexivity.
  - vm_compute. reflexivity.
  - reflexivity.
Qed.

(** ** Letter case *)

(** Below 128 a lowercased character is the character itself or its
    capital, 32 places before. *)
Lemma lower_char_inv (c l : ascii) :
  PyStr.lower_char c = l ->
  nat_of_ascii l < 128 ->
  c = l \/ c = ascii_of_nat (nat_of_ascii l - 32).
Proof.
  intros <-.
  destruct c as [[] [] [] [] [] [] [] []]; vm_compute; intros _; auto.
Qed.

(** The texts that lowercase to "sad". *)
Lemma lower_sad_inv (s : string) :
  PyStr.lower s = "sad" ->
  s ∈ ["sad"; "Sad"; "sAd"; "saD"; "SAd"; "SaD"; "sAD"; "SAD"].
Proof.
  destruct s as [| c1 [| c2 [| c3 [| c4 s]]]]; cbn; intros H;
    try discriminate H.
  injection H as H1 H2 H3.
  apply lower_char_inv in H1; [| vm_compute; lia].
  apply lower_char_inv in H2; [| vm_compute; lia].
  apply lower_char_inv in H3; [| vm_compute; lia].
  rewrite <- !mem_true_iff.
  destruct H1 as [-> | ->], H2 as [-> | ->], H3 as [-> | ->];
    vm_compute; reflexivity.
Qed.

(** C9: the verbatim match is case-sensitive and a miss of the table gives
    back the text as it was, not lowercased. So a text outside the four
    labels whose lowercase form is no short code maps to itself and then to
    "neutral", even when it is a canonical label in another case ("HAPPY",
    "Angry", "Neutral"); a text that lowercases to "sad" gives "sad", since
    "sad" is a key of the table. *)
Theorem C9_case_sensitive_match :
  (forall s,
     s ∉ EMOTION_LABELS ->
     PyStr.lower s ∉ emotion_mapping_items.*1 ->
     map_label s = s /\ ensure_valid (map_label s) = "neutral") /\
  (forall s,
     PyStr.lower s = "sad" ->
     clean_label s = s /\ map_label s = "sad" /\ emotion_of_raw s = "sad") /\
  Forall (fun s => PyStr.lower s ∈ EMOTION_LABELS /\
                   map_label s = s /\ emotion_of_raw s = "neutral")
    ["HAPPY"; "Angry"; "Neutral"] /\
  Forall (fun s => emotion_of_raw s = "sad")
    ["sad"; "Sad"; "sAd"; "saD"; "SAd"; "SaD"; "sAD"; "SAD"].
Proof.
  split; [| split; [| split]].
  - intros s Hlab Hcode. rewrite (map_label_miss _ Hlab Hcode).
    split; [reflexivity | apply ensure_valid_unknown; exact Hlab].
  - intros s Hs. apply lower_sad_inv in Hs.
    rewrite <- mem_true_iff in Hs. unfold PyStr.mem in Hs. cbn [existsb] in Hs.
    repeat (apply orb_true_iff in Hs as [Hs | Hs];
            [apply String.eqb_eq in Hs; subst s;
             repeat split; vm_compute; reflexivity |]).
    discriminate Hs.
  - repeat constructor; try (vm_compute; reflexivity);
      apply mem_true_iff; vm_compute; reflexivity.
  - repeat constructor; vm_compute; reflexivity.
Qed.

(** C9 at "HAPPY" and at "SaD". *)
Lemma C9_case_sensitive_match_witness :
  (map_label "HAPPY" = "HAPPY" /\ ensure_valid (map_label "HAPPY") = "neutral") /\
  emotion_of_raw "SaD" = "sad".
Proof.
  destruct C9_case_sensitive_match as (Hmiss & Hsad & _ & _).
  split.
  - apply (Hmiss "HAPPY").
    + rewrite <- mem_false_iff. vm_compute. reflexivity.
    + rewrite <- mem_false_iff. vm_compute. reflexivity.
  - apply (Hsad "SaD"). vm_compute. reflexivity.
Defined.

(** ** Well-formed score vectors *)

Lemma squeeze_wf (a : ndarray) : wf_ndarray a -> wf_ndarray (squeeze a).
Proof.
  unfold wf_ndarray, squeeze. cbn [shape data]. intros ->.
  induction (shape a) as [| d sh IH]; [reflexivity |].
  cbn [List.filter fold_right]. destruct (Nat.eqb d 1) eqn:Hd.
  - apply Nat.eqb_eq in Hd. subst d. cbn [negb]. rewrite <- IH. lia.
  - cbn [negb fold_right]. rewrite <- IH. reflexivity.
Qed.

(** On a well-formed vector the read of an entry below its length returns
    that entry. *)
Lemma float_at_wf (a : ndarray) (n i : nat) :
  wf_ndarray a -> shape a = [n] -> i < n ->
  exists x, data a !! i = Some x /\ float_at a i = inr x.
Proof.
  unfold wf_ndarray, float_at. intros Hwf Hsh Hi. rewrite Hsh in *. cbn in Hwf.
  destruct (lookup_lt_is_Some_2 (data a) i) as [x Hx]; [lia |].
  exists x. split; [exact Hx |].
  replace (nth_error (data a) i) with (Some x); [reflexivity |].
  symmetry. rewrite <- Hx. clear. revert i.
  induction (data a) as [| y l IH]; intros [| i]; cbn; auto.
Qed.

(** ** The scores of a response *)



(** ** Error responses *)

(** C6: with the handle unset the response is 503 with a detail that
    contains "Model not loaded", and the world is as before the call: the
    upload was not read, no file was created, no inference ran. *)
Theorem C6_model_not_loaded (req : request) (w : world) :
  post_predict None req w = (error_response 503 model_not_loaded, w) /\
  PyStr.contains "Model not loaded" model_not_loaded = true.
Proof. split; [reflexivity | vm_compute; reflexivity]. Qed.

(** C7, as the code has it: with the handle set, an exception other than an
    [HTTPException] raised by the upload read, the inference or the
    normalization gives status 500 with the detail "Prediction failed: "
    followed by the text of that exception, unless the removal of the
    scratch file raises in turn: then the text is that of the removal's
    exception. *)
Theorem C7_processing_failure_is_500 (clf : classifier_t) (req : request)
    (w : world) (cls msg : string) (cleanup : option (gmap string file)) :
  processing_failure clf req w (PyException cls msg) cleanup ->
  fst (post_predict (Some clf) req w) =
    error_response 500
      ("Prediction failed: "
       ++ default msg (cleanup_error (temp_path req) cleanup)).
Proof.
  intros H. unfold post_predict.
  inversion H as [Hup | dir Hreach | out dir Hreach Hnorm]; subst cleanup.
  - rewrite (predict_read_fails clf req w _ Hup). reflexivity.
  - rewrite (predict_after_inference clf req w _ dir Hreach). cbn.
    destruct (unlink_fs (temp_path req) dir) as [e | dir'] eqn:Hun.
    + destruct (unlink_fs_error _ _ _ Hun) as (cls' & msg' & ->). reflexivity.
    + reflexivity.
  - rewrite (predict_after_inference clf req w _ dir Hreach). cbn.
    rewrite Hnorm.
    destruct (unlink_fs (temp_path req) dir) as [e | dir'] eqn:Hun.
    + destruct (unlink_fs_error _ _ _ Hun) as (cls' & msg' & ->). reflexivity.
    + reflexivity.
Qed.

(** C7 at an upload whose read fails. *)
Lemma C7_processing_failure_is_500_witness :
  fst (post_predict (Some (Scenario.returning Scenario.hap_plain))
         {| upload := Raise (PyException "OSError" "connection reset");
            temp_prefix := "/tmp/tmpk3x9" |}
         Scenario.w0) =
    error_response 500 "Prediction failed: connection reset".
Proof.
  apply (C7_processing_failure_is_500
           (Scenario.returning Scenario.hap_plain)
           {| upload := Raise (PyException "OSError" "connection reset");
              temp_prefix := "/tmp/tmpk3x9" |}
           Scenario.w0 "OSError" "connection reset" None).
  apply fail_read. reflexivity.
Defined.

(** C7 as stated fails: the normalization raises an AttributeError on an
    integer label after the scratch file was removed during the inference;
    the detail carries the text of the FileNotFoundError of the removal,
    not of the AttributeError. *)
Lemma C7_counterexample :
  processing_failure (Scenario.removing_then_returning Scenario.tensor_label)
    Scenario.req1 Scenario.w0
    (PyException "AttributeError" "'int' object has no attribute 'strip'")
    (Some ∅) /\
  fst (post_predict (Some (Scenario.removing_then_returning Scenario.tensor_label))
         Scenario.req1 Scenario.w0) =
    error_response 500
      "Prediction failed: [Errno 2] No such file or directory: '/tmp/tmpk3x9.wav'" /\
  PyStr.contains "'int' object has no attribute 'strip'"
    "Prediction failed: [Errno 2] No such file or directory: '/tmp/tmpk3x9.wav'"
    = false.
Proof.
  split; [| split].
  - apply (fail_normalization _ _ _ _ Scenario.tensor_label).
    + exists "RIFF". repeat split.
    + reflexivity.
  - vm_compute. reflexivity.
  - vm_compute. reflexivity.
Qed.

(** ** Confidence *)

(** The confidence of a successful response is the very float the
    classifier gave as its top score, through [item()] or not. *)
Lemma confidence_is_the_score (classifier : option classifier_t)
    (req : request) (w w' : world) (p : prediction) :
  predict_emotion classifier req w = (inr p, w') ->
  exists clf out dir,
    classifier = Some clf /\
    reaches_inference clf req w (inr out) dir /\
    (score out = ScoreScalarLike (inr (confidence p)) \/
     score out = ScorePlain (inr (confidence p))).
Proof.
  intros H.
  apply predict_success_inv in H as (clf & out & dir & -> & Hreach & Hnorm & _).
  apply normalize_output_inv in Hnorm as (raw & a & _ & Hconf & _ & _ & _).
  exists clf, out, dir. repeat split; try assumption.
  destruct (score out) as [r | r]; cbn in Hconf; subst r; auto.
Qed.

(** C8 fails on the code: the docstring of the handler promises a
    confidence score within 0-1, but lines 148-152 pass the top score of
    the classifier on as it is. For a classifier whose top score is 1.5 the
    endpoint answers 200 with confidence 1.5, which is not within [0, 1]. *)
Theorem C8_confidence_not_clamped :
  fst (post_predict (Some (Scenario.returning Scenario.overconfident))
         Scenario.req1 Scenario.w0) =
    ok_response {| emotion := "happy"; confidence := 1.5;
                   scores := [("angry", 0.82); ("happy", 0.05);
                              ("neutral", 0.08); ("sad", 0.05)]%float |} /\
  in_unit_interval 1.5 = false.
Proof. split; vm_compute; reflexivity. Qed.

(** ** Empty label sequence *)

(** C10: when the label of the classifier is an empty list or tuple, the
    extraction does not raise and gives 'neutral'; when the score, the
    score vector and the cleanup raise nothing either, the handler returns
    its dict with emotion "neutral", and the endpoint answers 200 with it
    whenever its floats can be rendered as JSON. *)
Theorem C10_empty_sequence_label (clf : classifier_t) (req : request)
    (w : world) (out : classifier_output) (dir dir' : gmap string file)
    (kind : seq_kind) (conf : float) (a : ndarray)
    (sc : list (string * float)) :
  reaches_inference clf req w (inr out) dir ->
  text_lab out = LabSeq kind [] ->
  extract_confidence (score out) = inr conf ->
  extract_scores_array (out_prob out) = inr a ->
  fill_scores a 0 EMOTION_LABELS [] = inr sc ->
  unlink_fs (temp_path req) dir = inr dir' ->
  extract_label (text_lab out) = inr "neutral" /\
  fst (predict_emotion (Some clf) req w) =
    inr {| emotion := "neutral"; confidence := conf; scores := sc |} /\
  (json_compliant {| emotion := "neutral"; confidence := conf; scores := sc |}
   = true ->
   fst (post_predict (Some clf) req w) =
     ok_response {| emotion := "neutral"; confidence := conf; scores := sc |}).
Proof.
  intros Hreach Hlab Hconf Harr Hfill Hun.
  assert (Hnorm : normalize_output out =
                  inr {| emotion := "neutral"; confidence := conf; scores := sc |}).
  { unfold normalize_output. rewrite Hlab. cbn [extract_label rbind].
    rewrite Hconf, Harr. cbn [rbind]. rewrite Hfill. cbn [rbind]. f_equal. }
  split; [rewrite Hlab; reflexivity | split].
  - rewrite (predict_after_inference clf req w (inr out) dir Hreach).
    cbn [rbind]. rewrite Hnorm, Hun. reflexivity.
  - intros Hjson.
    rewrite (post_predict_success clf req w out dir dir' _ Hreach Hnorm Hjson Hun).
    reflexivity.
Qed.

(** C10 at an empty tuple and at an empty list. *)
Lemma C10_empty_sequence_label_witness :
  Forall (fun kind =>
            fst (predict_emotion (Some (Scenario.returning (Scenario.empty_label kind)))
                   Scenario.req1 Scenario.w0) =
              inr {| emotion := "neutral"; confidence := 0.5;
                     scores := [("angry", 0.25); ("happy", 0.25);
                                ("neutral", 0.25); ("sad", 0.25)]%float |} /\
            fst (post_predict (Some (Scenario.returning (Scenario.empty_label kind)))
                   Scenario.req1 Scenario.w0) =
              ok_response {| emotion := "neutral"; confidence := 0.5;
                             scores := [("angry", 0.25); ("happy", 0.25);
                                        ("neutral", 0.25); ("sad", 0.25)]%float |})
    [PyList; PyTuple].
Proof.
  apply Forall_cons_2; [| apply Forall_cons_2; [| apply Forall_nil_2]].
  - destruct (C10_empty_sequence_label
                (Scenario.returning (Scenario.empty_label PyList))
                Scenario.req1 Scenario.w0 (Scenario.empty_label PyList)
                (fs_with_upload Scenario.req1 Scenario.w0 "RIFF") ∅
                PyList 0.5%float uniform_scores
                [("angry", 0.25); ("happy", 0.25);
                 ("neutral", 0.25); ("sad", 0.25)]%float)
      as (_ & Hdict & Hresp).
    + exists "RIFF". repeat split.
    + reflexivity.
    + reflexivity.
    + reflexivity.
    + vm_compute. reflexivity.
    + vm_compute. reflexivity.
    + split; [exact Hdict | apply Hresp; vm_compute; reflexivity].
  - destruct (C10_empty_sequence_label
                (Scenario.returning (Scenario.empty_label PyTuple))
                Scenario.req1 Scenario.w0 (Scenario.empty_label PyTuple)
                (fs_with_upload Scenario.req1 Scenario.w0 "RIFF") ∅
                PyTuple 0.5%float uniform_scores
                [("angry", 0.25); ("happy", 0.25);
                 ("neutral", 0.25); ("sad", 0.25)]%float)
      as (_ & Hdict & Hresp).
    + exists "RIFF". repeat split.
    + reflexivity.
    + reflexivity.
    + reflexivity.
    + vm_compute. reflexivity.
    + vm_compute. reflexivity.
    + split; [exact Hdict | apply Hresp; vm_compute; reflexivity].
Defined.

(** * Further properties of the service *)

(** ** The three ways a call with a loaded model goes *)

(** The scratch name is taken: [tempfile] gives up and nothing else runs. *)
Lemma predict_name_taken (clf : classifier_t) (req : request) (w : world)
    (bytes : string) (f : file) :
  upload req = inr bytes ->
  fs w !! temp_path req = Some f ->
  predict_emotion (Some clf) req w =
    (Raise (HTTPException 500
              "Prediction failed: [Errno 17] No usable temporary file name found"),
     {| fs := fs w;
        trace := (trace w
                  ++ [EvRead;
                      EvLogError
                        "Prediction error: [Errno 17] No usable temporary file name found"])%list |}).
Proof.
  intros Hup Hf.
  unfold predict_emotion, try_except, bind at 1.
  unfold read_upload, bind, emit, lift. cbn. rewrite Hup.
  unfold named_temporary_file. cbn. fold (temp_path req). rewrite Hf. cbn.
  unfold bind, emit, raise. trace_eq.
Qed.

Lemma call_cases (clf : classifier_t) (req : request) (w : world) :
  call_case clf req w.
Proof.
  destruct (upload req) as [e | bytes] eqn:Hup.
  - apply (case_read_fails _ _ _ e Hup).
  - destruct (fs w !! temp_path req) as [f |] eqn:Hf.
    + apply (case_name_taken _ _ _ bytes f Hup Hf).
    + destruct (classify_file clf (temp_path req) (fs_with_upload req w bytes))
        as [r dir] eqn:Hcl.
      apply (case_inference _ _ _ bytes r dir Hup).
      exists bytes. auto.
Qed.

(** ** Stripping *)

Lemma append_cons (c : ascii) (u v : string) :
  String c u ++ v = String c (u ++ v).
Proof. reflexivity. Qed.

Lemma append_nil (v : string) : EmptyString ++ v = v.
Proof. reflexivity. Qed.

Lemma append_assoc_str (u v t : string) : (u ++ v) ++ t = u ++ (v ++ t).
Proof.
  induction u as [| c u IH]; [reflexivity |].
  rewrite !append_cons, IH. reflexivity.
Qed.

(** Simplification through the appends of strings. *)
Ltac scbn := cbn; rewrite ?append_cons, ?append_nil; cbn.
Tactic Notation "scbn" "in" hyp(H) :=
  cbn in H; rewrite ?append_cons, ?append_nil in H; cbn in H.

Section Strip.

Variable p : ascii -> bool.

Lemma lstrip_by_all (u : string) :
  all_chars p u = true -> PyStr.lstrip_by p u = EmptyString.
Proof.
  induction u as [| c u IH]; scbn; [reflexivity |].
  intros H. apply andb_true_iff in H as [Hc Hu]. rewrite Hc. apply IH, Hu.
Qed.

Lemma lstrip_by_app_all (pre t : string) :
  all_chars p pre = true ->
  PyStr.lstrip_by p (pre ++ t) = PyStr.lstrip_by p t.
Proof.
  induction pre as [| c pre IH]; scbn; [reflexivity |].
  intros H. apply andb_true_iff in H as [Hc Hu]. rewrite Hc. apply IH, Hu.
Qed.

Lemma lstrip_by_id (t : string) :
  head_is p t = false -> PyStr.lstrip_by p t = t.
Proof. destruct t as [| c t]; scbn; [reflexivity |]. intros ->. reflexivity. Qed.

Lemma rstrip_by_all (u : string) :
  all_chars p u = true -> PyStr.rstrip_by p u = EmptyString.
Proof.
  induction u as [| c u IH]; scbn; [reflexivity |].
  intros H. apply andb_true_iff in H as [Hc Hu]. rewrite (IH Hu), Hc. reflexivity.
Qed.

Lemma rstrip_by_app_all (t suf : string) :
  all_chars p suf = true ->
  PyStr.rstrip_by p (t ++ suf) = PyStr.rstrip_by p t.
Proof.
  intros H. induction t as [| c t IH]; scbn.
  - apply rstrip_by_all, H.
  - rewrite IH. reflexivity.
Qed.

Lemma rstrip_by_id (t : string) :
  last_is p t = false -> PyStr.rstrip_by p t = t.
Proof.
  induction t as [| c t IH]; [reflexivity |].
  destruct t as [| d t].
  - cbn. intros ->. reflexivity.
  - intros H. change (last_is p (String c (String d t)))
      with (last_is p (String d t)) in H.
    change (PyStr.rstrip_by p (String c (String d t)))
      with (match PyStr.rstrip_by p (String d t) with
            | EmptyString => if p c then EmptyString else String c EmptyString
            | r => String c r
            end).
    rewrite (IH H). reflexivity.
Qed.

(** Stripping takes off a wrapping made of stripped characters and nothing
    of a text whose two ends are not stripped. *)
Lemma strip_by_sandwich (pre t suf : string) :
  all_chars p pre = true -> all_chars p suf = true ->
  head_is p t = false -> last_is p t = false ->
  PyStr.strip_by p (pre ++ t ++ suf) = t.
Proof.
  intros Hpre Hsuf Hhead Hlast. unfold PyStr.strip_by.
  rewrite (lstrip_by_app_all _ _ Hpre).
  destruct t as [| c t].
  - scbn. rewrite (lstrip_by_all _ Hsuf). reflexivity.
  - rewrite lstrip_by_id by exact Hhead.
    rewrite (rstrip_by_app_all _ _ Hsuf). apply rstrip_by_id, Hlast.
Qed.

(** What the left strip takes off. *)
Lemma lstrip_by_split (s : string) :
  exists pre,
    s = pre ++ PyStr.lstrip_by p s /\
    all_chars p pre = true /\
    head_is p (PyStr.lstrip_by p s) = false.
Proof.
  induction s as [| c s (pre & Hs & Hpre & Hhead)].
  - exists EmptyString. repeat split.
  - cbn. destruct (p c) eqn:Hc.
    + exists (String c pre). scbn. rewrite Hc, Hpre, <- Hs. repeat split.
      exact Hhead.
    + exists EmptyString. scbn. rewrite Hc. repeat split.
Qed.

(** What the right strip takes off. *)
Lemma rstrip_by_split (s : string) :
  exists suf,
    s = PyStr.rstrip_by p s ++ suf /\
    all_chars p suf = true /\
    last_is p (PyStr.rstrip_by p s) = false.
Proof.
  induction s as [| c s (suf & Hs & Hsuf & Hlast)].
  - exists EmptyString. repeat split.
  - cbn. destruct (PyStr.rstrip_by p s) as [| d r] eqn:Hr.
    + scbn in Hs. subst suf. destruct (p c) eqn:Hc.
      * exists (String c s). scbn. rewrite Hc, Hsuf. repeat split.
      * exists s. scbn. rewrite Hc. repeat split. exact Hsuf.
    + exists suf. scbn. scbn in Hs. rewrite <- Hs. repeat split.
      * exact Hsuf.
      * exact Hlast.
Qed.

Lemma rstrip_by_head (s : string) :
  head_is p s = false -> head_is p (PyStr.rstrip_by p s) = false.
Proof.
  destruct s as [| c s]; scbn; [reflexivity |].
  intros Hc. destruct (PyStr.rstrip_by p s); cbn; [| exact Hc].
  rewrite Hc. cbn. exact Hc.
Qed.

End Strip.

Lemma all_chars_app (p : ascii -> bool) (u v : string) :
  all_chars p (u ++ v) = all_chars p u && all_chars p v.
Proof.
  induction u as [| c u IH]; scbn; [reflexivity |].
  rewrite IH, andb_assoc. reflexivity.
Qed.

Lemma all_chars_mono (p q : ascii -> bool) (u : string) :
  (forall c, p c = true -> q c = true) ->
  all_chars p u = true -> all_chars q u = true.
Proof.
  intros Hpq. induction u as [| c u IH]; scbn; [reflexivity |].
  intros H. apply andb_true_iff in H as [Hc Hu].
  rewrite (Hpq c Hc), (IH Hu). reflexivity.
Qed.

Lemma head_is_app (p : ascii -> bool) (u v : string) :
  head_is p (u ++ v) =
    match u with EmptyString => head_is p v | _ => head_is p u end.
Proof. destruct u; reflexivity. Qed.

Lemma last_is_app (p : ascii -> bool) (u v : string) :
  last_is p (u ++ v) =
    match v with EmptyString => last_is p u | _ => last_is p v end.
Proof.
  induction u as [| c u IH].
  - scbn. destruct v; reflexivity.
  - destruct u as [| d u].
    + scbn. destruct v; reflexivity.
    + change (last_is p (String c (String d u) ++ v))
        with (last_is p (String d u ++ v)).
      rewrite IH. destruct v; reflexivity.
Qed.

Lemma head_is_all (p q : ascii -> bool) (u : string) :
  (forall c, q c = true -> p c = false) ->
  all_chars q u = true -> head_is p u = false.
Proof.
  intros Hqp. destruct u as [| c u]; scbn; [reflexivity |].
  intros H. apply andb_true_iff in H as [Hc _]. apply Hqp, Hc.
Qed.

Lemma last_is_all (p q : ascii -> bool) (u : string) :
  (forall c, q c = true -> p c = false) ->
  all_chars q u = true -> last_is p u = false.
Proof.
  intros Hqp. induction u as [| c u IH]; [reflexivity |].
  intros H. cbn in H. apply andb_true_iff in H as [Hc Hu].
  destruct u as [| d u]; [cbn; apply Hqp, Hc | apply IH, Hu].
Qed.

(** A bracket or quote is not whitespace. *)
Lemma wrapper_not_space (c : ascii) :
  is_wrapper c = true -> PyStr.is_space c = false.
Proof.
  unfold is_wrapper, bracket_quote_chars. cbn [PyStr.mem_char].
  rewrite orb_false_r. intros H.
  repeat (apply orb_true_iff in H as [H | H];
          [apply Ascii.eqb_eq in H; subst c; reflexivity |]).
  apply Ascii.eqb_eq in H. subst c. reflexivity.
Qed.

(** ** Cleaning of the label text (line 123) *)

(** A text whose two ends are neither whitespace, bracket nor quote comes
    back as it is from a wrapping of brackets and quotes with whitespace
    around it, the way [str] prints a list of one label. *)
Theorem clean_label_unwraps (ws1 pre s suf ws2 : string) :
  all_chars PyStr.is_space ws1 = true ->
  all_chars is_wrapper pre = true ->
  head_is is_stripped s = false ->
  last_is is_stripped s = false ->
  all_chars is_wrapper suf = true ->
  all_chars PyStr.is_space ws2 = true ->
  clean_label (ws1 ++ (pre ++ s ++ suf) ++ ws2) = s.
Proof.
  intros Hws1 Hpre Hhead Hlast Hsuf Hws2.
  assert (Hhs : head_is PyStr.is_space s = false /\ head_is is_wrapper s = false).
  { destruct s as [| c s]; [split; reflexivity |]. cbn in Hhead |- *.
    apply orb_false_iff. exact Hhead. }
  assert (Hls : last_is PyStr.is_space s = false /\ last_is is_wrapper s = false).
  { clear Hhead Hhs. induction s as [| c s IH]; [split; reflexivity |].
    destruct s as [| d s].
    - cbn in Hlast |- *. apply orb_false_iff. exact Hlast.
    - apply IH. exact Hlast. }
  destruct Hhs as [Hhsp Hhwr]. destruct Hls as [Hlsp Hlwr].
  unfold clean_label, PyStr.strip, PyStr.strip_chars.
  rewrite strip_by_sandwich; [| exact Hws1 | exact Hws2 | |].
  - apply (strip_by_sandwich is_wrapper); assumption.
  - rewrite head_is_app. destruct pre as [| c pre].
    + rewrite head_is_app. destruct s as [| c s]; [| exact Hhsp].
      apply (head_is_all _ is_wrapper); [apply wrapper_not_space | exact Hsuf].
    + apply (head_is_all _ is_wrapper); [apply wrapper_not_space | exact Hpre].
  - rewrite last_is_app.
    destruct (s ++ suf) as [| c t] eqn:Hst.
    + apply (last_is_all _ is_wrapper); [apply wrapper_not_space | exact Hpre].
    + rewrite <- Hst. rewrite last_is_app. destruct suf as [| d suf].
      * exact Hlsp.
      * apply (last_is_all _ is_wrapper); [apply wrapper_not_space | exact Hsuf].
Qed.

(** The printed list ['hap'] with a blank on each side. *)
Lemma clean_label_unwraps_witness :
  clean_label (" " ++ ("['" ++ "hap" ++ "']") ++ " ") = "hap".
Proof.
  apply (clean_label_unwraps " " "['" "hap" "']" " "); vm_compute; reflexivity.
Defined.

(** Cleaning removes characters at the two ends only, and only whitespace,
    brackets and quotes; what is left neither starts nor ends with a
    bracket or a quote. *)
Theorem clean_label_split (raw : string) :
  exists pre suf,
    raw = pre ++ clean_label raw ++ suf /\
    all_chars is_stripped pre = true /\
    all_chars is_stripped suf = true /\
    head_is is_wrapper (clean_label raw) = false /\
    last_is is_wrapper (clean_label raw) = false.
Proof.
  unfold clean_label, PyStr.strip_chars, PyStr.strip, PyStr.strip_by.
  destruct (lstrip_by_split PyStr.is_space raw) as (p1 & H1 & Hp1 & _).
  destruct (rstrip_by_split PyStr.is_space (PyStr.lstrip_by PyStr.is_space raw))
    as (s1 & H2 & Hs1 & _).
  set (a := PyStr.rstrip_by PyStr.is_space (PyStr.lstrip_by PyStr.is_space raw)) in *.
  destruct (lstrip_by_split is_wrapper a) as (p2 & H3 & Hp2 & Hhead).
  destruct (rstrip_by_split is_wrapper (PyStr.lstrip_by is_wrapper a))
    as (s2 & H4 & Hs2 & Hlast).
  fold is_wrapper.
  set (b := PyStr.rstrip_by is_wrapper (PyStr.lstrip_by is_wrapper a)) in *.
  exists (p1 ++ p2), (s2 ++ s1). repeat split.
  - rewrite H1 at 1. rewrite H2 at 1. rewrite H3 at 1. rewrite H4 at 1.
    rewrite !append_assoc_str. reflexivity.
  - rewrite all_chars_app.
    rewrite (all_chars_mono PyStr.is_space is_stripped p1), (all_chars_mono is_wrapper is_stripped p2);
      try assumption; try reflexivity;
      intros c Hc; unfold is_stripped; rewrite Hc; auto using orb_true_r.
  - rewrite all_chars_app.
    rewrite (all_chars_mono is_wrapper is_stripped s2), (all_chars_mono PyStr.is_space is_stripped s1);
      try assumption; try reflexivity;
      intros c Hc; unfold is_stripped; rewrite Hc; auto using orb_true_r.
  - apply rstrip_by_head. exact Hhead.
  - exact Hlast.
Qed.

(** ** The table, in any letter case *)

Lemma emotion_mapping_keys_NoDup : NoDup emotion_mapping_items.*1.
Proof.
  cbn. repeat (apply NoDup_cons_2; [rewrite <- mem_false_iff; reflexivity |]).
  apply NoDup_nil_2.
Qed.

Lemma emotion_mapping_hit (code label : string) :
  (code, label) ∈ emotion_mapping_items -> emotion_mapping !! code = Some label.
Proof. apply elem_of_list_to_map_1, emotion_mapping_keys_NoDup. Qed.

Lemma emotion_mapping_values (code label : string) :
  (code, label) ∈ emotion_mapping_items -> label ∈ EMOTION_LABELS.
Proof.
  intros H. apply list_elem_of_In in H. cbn in H.
  apply mem_true_iff.
  repeat (destruct H as [H | H]; [injection H as _ <-; reflexivity |]).
  contradiction.
Qed.

(** A short code is recognized in any letter case: a text whose lowercase
    form is a key of the table maps to the label the table gives. *)
Theorem short_codes_any_case (s code label : string) :
  (code, label) ∈ emotion_mapping_items ->
  PyStr.lower s = code ->
  map_label s = label /\ ensure_valid (map_label s) = label.
Proof.
  intros Hin Hlow.
  assert (Hmap : map_label s = label).
  { unfold map_label. destruct (PyStr.mem s EMOTION_LABELS) eqn:Hm.
    - apply mem_true_iff, list_elem_of_In in Hm. cbn in Hm.
      apply list_elem_of_In in Hin. cbn in Hin.
      repeat (destruct Hm as [Hm | Hm];
              [subst s; cbn in Hlow; subst code;
               repeat (destruct Hin as [Hin | Hin];
                       [first [discriminate Hin
                              | injection Hin as <-; reflexivity] |]);
               contradiction |]).
      contradiction.
    - rewrite Hlow, (emotion_mapping_hit _ _ Hin). reflexivity. }
  split; [exact Hmap |].
  rewrite Hmap. unfold ensure_valid.
  replace (PyStr.mem label EMOTION_LABELS) with true; [reflexivity |].
  symmetry. apply mem_true_iff. apply (emotion_mapping_values code label Hin).
Qed.

(** "FRU" in capitals is the code fru. *)
Lemma short_codes_any_case_witness :
  map_label "FRU" = "sad" /\ ensure_valid (map_label "FRU") = "sad".
Proof.
  apply (short_codes_any_case "FRU" "fru" "sad").
  - apply list_elem_of_In. cbn. tauto.
  - vm_compute. reflexivity.
Defined.

(** The emotion of a response, fed back as a label text, comes out
    unchanged. *)
Theorem emotion_of_raw_idempotent (raw : string) :
  emotion_of_raw (emotion_of_raw raw) = emotion_of_raw raw.
Proof.
  pose proof (emotion_of_raw_canonical raw) as H.
  apply list_elem_of_In in H. cbn in H.
  repeat (destruct H as [H | H]; [rewrite <- H; vm_compute; reflexivity |]).
  contradiction.
Qed.

(** ** A label that is not text *)



(** ** The temp directory across a call *)

(** The scratch file of a call, untouched by the classifier, is removed
    without error and leaves the directory as it was. *)
Lemma unlink_fs_scratch (req : request) (w : world) (bytes : string) :
  fs w !! temp_path req = None ->
  unlink_fs (temp_path req) (fs_with_upload req w bytes) = inr (fs w).
Proof.
  intros Hfree. unfold unlink_fs, fs_with_upload.
  rewrite lookup_insert_eq. cbn. f_equal. apply delete_insert_id. exact Hfree.
Qed.

(** With a classifier that leaves the temp directory alone, the directory
    after a call whose scratch file was written out is the one before it,
    whether the handle is set or not and however the call ends: the read
    fails, no scratch name is free, the inference or the normalization
    raises, or the prediction is returned. When the write of the scratch
    file raises, the file is not removed: the handler stops before the
    [try] whose [finally] unlinks it, and the file stays behind. *)
Theorem temp_dir_restored (classifier : option classifier_t) (req : request)
    (w : world) :
  (forall clf path dir,
     classifier = Some clf -> snd (classify_file clf path dir) = dir) ->
  predict_emotion_io WriteOk classifier req w = predict_emotion classifier req w /\
  fs (snd (predict_emotion_io WriteOk classifier req w)) = fs w /\
  (forall e written clf bytes,
     classifier = Some clf ->
     upload req = inr bytes ->
     fs w !! temp_path req = None ->
     let w' := snd (predict_emotion_io (WriteFails e written) classifier req w) in
     fs w' =
       <[temp_path req := {| contents := written; locked := false |}]> (fs w) /\
     trace w' =
       (trace w ++ [EvRead; EvTempFile (temp_path req)]
        ++ error_line (inl e))%list).
Proof.
  intros Hkeep. split; [reflexivity | split].
  - change (predict_emotion_io WriteOk classifier req w)
      with (predict_emotion classifier req w).
    destruct classifier as [clf |]; [| reflexivity].
    destruct (call_cases clf req w)
      as [e Hup | bytes f Hup Hf | bytes r dir Hup Hreach].
    + rewrite (predict_read_fails clf req w e Hup). reflexivity.
    + rewrite (predict_name_taken clf req w bytes f Hup Hf). reflexivity.
    + rewrite (predict_after_inference clf req w r dir Hreach).
      destruct Hreach as (bytes' & Hup' & Hfree & Hcl).
      pose proof (Hkeep clf (temp_path req) (fs_with_upload req w bytes') eq_refl)
        as Hdir.
      rewrite Hcl in Hdir. cbn in Hdir. subst dir.
      rewrite (unlink_fs_scratch req w bytes' Hfree). reflexivity.
  - intros e written clf bytes -> Hup Hfree. cbn zeta.
    unfold predict_emotion_io, try_except, bind at 1.
    unfold read_upload, bind, emit, lift. cbn. rewrite Hup.
    unfold named_temporary_file_io. cbn. fold (temp_path req). rewrite Hfree.
    cbn. destruct e as [c d | cls msg]; cbn.
    + split; [reflexivity | trace_eq].
    + unfold bind, emit, raise. cbn. split; [reflexivity | trace_eq].
Qed.

(** A failing inference in a directory that holds another file leaves the
    directory as it was; a disk that fills up during the write leaves the
    scratch file. *)
Lemma temp_dir_restored_witness :
  let clf := {| classify_file := fun _ dir => (Raise Scenario.boom, dir) |} in
  let w :=
    {| fs := <["/tmp/other.wav" := {| contents := "x"; locked := false |}]> ∅;
       trace := [] |} in
  fs (snd (predict_emotion_io WriteOk (Some clf) Scenario.req1 w)) = fs w /\
  is_Some
    (fs (snd (predict_emotion_io
                (WriteFails (PyException "OSError"
                               "[Errno 28] No space left on device")
                            EmptyString)
                (Some clf) Scenario.req1 w))
     !! "/tmp/tmpk3x9.wav").
Proof.
  intros clf w.
  destruct (temp_dir_restored (Some clf) Scenario.req1 w) as (_ & Hkept & Hleft).
  - intros clf' path dir Hclf. injection Hclf as <-. reflexivity.
  - split; [exact Hkept |].
    destruct (Hleft (PyException "OSError" "[Errno 28] No space left on device")
                EmptyString clf "RIFF" eq_refl eq_refl) as [Hfs _].
    + vm_compute. reflexivity.
    + rewrite Hfs. change (temp_path Scenario.req1) with "/tmp/tmpk3x9.wav".
      rewrite lookup_insert_eq. eexists. reflexivity.
Defined.

(** When the read of the upload raises, no scratch file is created and the
    classifier is not called: the temp directory is untouched and the trace
    gains the read and, for an exception that is not an [HTTPException],
    the error log line. *)
Theorem read_failure_stops_the_call (clf : classifier_t) (req : request)
    (w : world) (e : exn) :
  upload req = inl e ->
  let w' := snd (post_predict (Some clf) req w) in
  fs w' = fs w /\
  trace w' = (trace w ++ [EvRead] ++ error_line (inl e))%list /\
  (forall path, EvTempFile path ∉ (EvRead :: error_line (inl e))) /\
  (forall path, EvClassify path ∉ (EvRead :: error_line (inl e))).
Proof.
  intros Hup. cbn zeta. unfold post_predict.
  rewrite (predict_read_fails clf req w e Hup). cbn [snd fs trace].
  repeat split.
  - intros path Hin. destruct e as [c d | cls msg]; cbn in Hin;
      repeat (apply elem_of_cons in Hin as [Hin | Hin]; [discriminate Hin |]);
      inversion Hin.
  - intros path Hin. destruct e as [c d | cls msg]; cbn in Hin;
      repeat (apply elem_of_cons in Hin as [Hin | Hin]; [discriminate Hin |]);
      inversion Hin.
Qed.

(** A connection that drops during the read. *)
Lemma read_failure_stops_the_call_witness :
  trace (snd (post_predict (Some (Scenario.returning Scenario.hap_plain))
                {| upload := Raise (PyException "OSError" "connection reset");
                   temp_prefix := "/tmp/tmpk3x9" |}
                Scenario.w0))
  = [EvRead; EvLogError "Prediction error: connection reset"].
Proof.
  apply (read_failure_stops_the_call
           (Scenario.returning Scenario.hap_plain)
           {| upload := Raise (PyException "OSError" "connection reset");
              temp_prefix := "/tmp/tmpk3x9" |}
           Scenario.w0 (PyException "OSError" "connection reset")).
  reflexivity.
Defined.

(** An [HTTPException] raised by the read, the inference or the
    normalization goes out with its own status and detail, and no error line
    is logged, provided the removal of the scratch file raises nothing. *)
Theorem http_exception_passes_through (clf : classifier_t) (req : request)
    (w : world) (code : Z) (detail : string)
    (cleanup : option (gmap string file)) :
  processing_failure clf req w (HTTPException code detail) cleanup ->
  cleanup_error (temp_path req) cleanup = None ->
  fst (post_predict (Some clf) req w) = error_response code detail /\
  exists added,
    trace (snd (post_predict (Some clf) req w)) = (trace w ++ added)%list /\
    forall msg, EvLogError msg ∉ added.
Proof.
  intros H Hclean. unfold post_predict.
  inversion H as [Hup | dir Hreach | out dir Hreach Hnorm]; subst cleanup.
  - rewrite (predict_read_fails clf req w _ Hup). cbn.
    split; [reflexivity |]. exists [EvRead]. split; [reflexivity |].
    intros msg Hin. apply list_elem_of_singleton in Hin. discriminate Hin.
  - rewrite (predict_after_inference clf req w _ dir Hreach). cbn.
    cbn in Hclean.
    destruct (unlink_fs (temp_path req) dir) as [e | dir'] eqn:Hun.
    { destruct (unlink_fs_error _ _ _ Hun) as (cls' & msg' & ->).
      discriminate Hclean. }
    cbn. split; [reflexivity |].
    exists [EvRead; EvTempFile (temp_path req); EvClassify (temp_path req);
            EvUnlink (temp_path req)].
    split; [trace_eq |].
    intros msg Hin.
    repeat (apply elem_of_cons in Hin as [Hin | Hin]; [discriminate Hin |]).
    inversion Hin.
  - rewrite (predict_after_inference clf req w _ dir Hreach). cbn.
    cbn in Hclean. rewrite Hnorm.
    destruct (unlink_fs (temp_path req) dir) as [e | dir'] eqn:Hun.
    { destruct (unlink_fs_error _ _ _ Hun) as (cls' & msg' & ->).
      discriminate Hclean. }
    cbn. split; [reflexivity |].
    exists [EvRead; EvTempFile (temp_path req); EvClassify (temp_path req);
            EvUnlink (temp_path req)].
    split; [trace_eq |].
    intros msg Hin.
    repeat (apply elem_of_cons in Hin as [Hin | Hin]; [discriminate Hin |]).
    inversion Hin.
Qed.

(** A classifier that answers 429 itself. *)
Lemma http_exception_passes_through_witness :
  fst (post_predict
         (Some {| classify_file := fun _ dir =>
                    (Raise (HTTPException 429 "Too many requests"), dir) |})
         Scenario.req1 Scenario.w0)
  = error_response 429 "Too many requests".
Proof.
  apply (http_exception_passes_through
           {| classify_file := fun _ dir =>
                (Raise (HTTPException 429 "Too many requests"), dir) |}
           Scenario.req1 Scenario.w0 429 "Too many requests"
           (Some (fs_with_upload Scenario.req1 Scenario.w0 "RIFF"))).
  - apply fail_inference. exists "RIFF". repeat split.
  - vm_compute. reflexivity.
Defined.

(** ** Which score vectors the loop accepts *)

Lemma fill_scores_total (a : ndarray) (n : nat) :
  array_len a = inr n ->
  (forall i, exists v, score_at a n i = inr v) ->
  forall labels i acc, exists sc, fill_scores a i labels acc = inr sc.
Proof.
  intros Hlen Hat labels.
  induction labels as [| label labels IH]; intros i acc; cbn [fill_scores].
  - eauto.
  - rewrite Hlen. cbn [rbind]. fold (score_at a n i).
    destruct (Hat i) as [v Hv]. rewrite Hv. cbn [rbind]. apply IH.
Qed.

(** The loop of lines 164-169 goes through exactly when the squeezed score
    vector has one axis, or a first axis of length zero; an array of no axis
    and one of several axes with a non-empty first one make it raise. *)
Theorem fill_scores_succeeds_iff (a : ndarray) :
  wf_ndarray a ->
  (exists sc, fill_scores a 0 EMOTION_LABELS [] = inr sc) <->
  (exists n, shape a = [n]) \/ (exists rest, shape a = 0 :: rest).
Proof.
  intros Hwf. split.
  - intros [sc Hsc].
    destruct (fill_scores_labels a sc Hsc) as (n & Hlen & _ & Hat).
    destruct (Hat 0 "angry" eq_refl) as (v & _ & Hv).
    unfold array_len in Hlen. unfold score_at, float_at in Hv.
    destruct (shape a) as [| d rest]; [discriminate Hlen |].
    injection Hlen as ->.
    destruct n as [| n]; [right; eauto |].
    cbn in Hv. destruct rest; [left; eauto | discriminate Hv].
  - intros [[n Hsh] | [rest Hsh]].
    + apply (fill_scores_total a n).
      * unfold array_len. rewrite Hsh. reflexivity.
      * intros i. unfold score_at. destruct (Nat.ltb i n) eqn:Hi.
        -- apply Nat.ltb_lt in Hi.
           destruct (float_at_wf a n i Hwf Hsh Hi) as (x & _ & Hx). eauto.
        -- eauto.
    + apply (fill_scores_total a 0).
      * unfold array_len. rewrite Hsh. reflexivity.
      * intros i. unfold score_at. cbn. eauto.
Qed.

(** A vector of four entries is accepted, a batch of two vectors is not. *)
Lemma fill_scores_succeeds_iff_witness :
  (exists sc, fill_scores Scenario.vector4 0 EMOTION_LABELS [] = inr sc) /\
  ~ (exists sc,
       fill_scores {| shape := [2; 1]; data := [0.5; 0.5]%float |}
         0 EMOTION_LABELS [] = inr sc).
Proof.
  split.
  - apply (fill_scores_succeeds_iff Scenario.vector4); [reflexivity |].
    left. exists 4. reflexivity.
  - intros H.
    apply (fill_scores_succeeds_iff {| shape := [2; 1]; data := [0.5; 0.5]%float |})
      in H; [| reflexivity].
    destruct H as [[n H] | [rest H]]; discriminate H.
Defined.

(** On a well-formed vector of one axis the scores are the first four
    entries of the vector, in label order, with 0.0 where the vector ends
    early; entries after the fourth are left out. *)
Theorem scores_take_four (a : ndarray) (n : nat) :
  wf_ndarray a ->
  shape a = [n] ->
  fill_scores a 0 EMOTION_LABELS [] =
    inr (zip EMOTION_LABELS (take 4 (data a ++ replicate 4 0%float)%list)).
Proof.
  destruct a as [sh d]. unfold wf_ndarray. cbn [shape data].
  intros Hwf ->. cbn in Hwf. rewrite Nat.mul_1_r in Hwf. subst n.
  destruct d as [| x0 [| x1 [| x2 [| x3 rest]]]]; reflexivity.
Qed.

(** A vector of six entries: the last two are left out. *)
Lemma scores_take_four_witness :
  fill_scores {| shape := [6]; data := [0.1; 0.2; 0.3; 0.4; 0.5; 0.6]%float |}
    0 EMOTION_LABELS [] =
  inr [("angry", 0.1); ("happy", 0.2); ("neutral", 0.3); ("sad", 0.4)]%float.
Proof.
  apply (scores_take_four
           {| shape := [6]; data := [0.1; 0.2; 0.3; 0.4; 0.5; 0.6]%float |} 6);
    reflexivity.
Defined.

Lemma squeeze_units (a : ndarray) :
  Forall (fun d => d = 1) (shape a) -> shape (squeeze a) = [].
Proof.
  unfold squeeze. cbn [shape]. induction 1 as [| d sh Hd _ IH]; [reflexivity |].
  subst d. cbn. exact IH.
Qed.

(** A numpy-convertible [out_prob] whose axes all have length one (a single
    number, as a batch of one over one class) squeezes to an array without
    length: the request is answered 500; the uniform fallback is not used. *)
Theorem single_number_scores_fail (clf : classifier_t) (req : request)
    (w : world) (out : classifier_output) (dir dir' : gmap string file)
    (raw : string) (conf : float) (a : ndarray) :
  reaches_inference clf req w (inr out) dir ->
  extract_label (text_lab out) = inr raw ->
  extract_confidence (score out) = inr conf ->
  out_prob out = ProbNumpyLike (inr a) ->
  Forall (fun d => d = 1) (shape a) ->
  unlink_fs (temp_path req) dir = inr dir' ->
  fst (post_predict (Some clf) req w) =
    error_response 500 "Prediction failed: len() of unsized object".
Proof.
  intros Hreach Hraw Hconf Hprob Hunits Hun. unfold post_predict.
  rewrite (predict_after_inference clf req w _ dir Hreach). cbn [rbind].
  rewrite Hun. unfold normalize_output.
  rewrite Hraw, Hconf, Hprob. cbn [rbind extract_scores_array Return].
  unfold fill_scores, EMOTION_LABELS, array_len.
  rewrite (squeeze_units a Hunits). reflexivity.
Qed.

(** The score array [[0.9]]. *)
Lemma single_number_scores_fail_witness :
  fst (post_predict
         (Some (Scenario.returning
                  {| out_prob :=
                       ProbNumpyLike (Return {| shape := [1; 1]; data := [0.9%float] |});
                     score := ScorePlain (Return 0.9%float);
                     index := 0;
                     text_lab := LabOther "hap" |}))
         Scenario.req1 Scenario.w0) =
    error_response 500 "Prediction failed: len() of unsized object".
Proof.
  eapply (single_number_scores_fail _ Scenario.req1 Scenario.w0 _
            (fs_with_upload Scenario.req1 Scenario.w0 "RIFF") ∅
            "hap" 0.9%float {| shape := [1; 1]; data := [0.9%float] |}).
  - exists "RIFF". repeat split.
  - reflexivity.
  - reflexivity.
  - reflexivity.
  - repeat constructor.
  - vm_compute. reflexivity.
Defined.

(** ** Startup, health and root *)

(** With a handle the call reads the upload first. *)
Lemma predict_reads_first (clf : classifier_t) (req : request) (w : world) :
  exists added,
    trace (snd (predict_emotion (Some clf) req w)) =
      (trace w ++ EvRead :: added)%list.
Proof.
  destruct (call_cases clf req w) as [e Hup | bytes f Hup Hf | bytes r dir Hup Hreach].
  - rewrite (predict_read_fails clf req w e Hup). cbn. eauto.
  - rewrite (predict_name_taken clf req w bytes f Hup Hf). cbn. eauto.
  - rewrite (predict_after_inference clf req w r dir Hreach).
    destruct (unlink_fs (temp_path req) dir); cbn;
      rewrite <- !List.app_assoc; cbn; eauto.
Qed.

(** Health and root report the same [model_loaded], and it is false
    exactly when a predict call is turned away with the 503 before anything
    is done. *)
Theorem health_tells_predict (st : app_state) (req : request) (w : world) :
  health_status (health_check st) = "healthy" /\
  health_model_loaded (health_check st) = root_model_loaded (root st) /\
  (health_model_loaded (health_check st) = false <->
   post_predict (classifier st) req w = (error_response 503 model_not_loaded, w)).
Proof.
  split; [reflexivity | split; [reflexivity |]].
  unfold health_check. cbn [health_model_loaded].
  destruct (classifier st) as [clf |]; cbn; split; intros H;
    try reflexivity; try discriminate H.
  exfalso. unfold post_predict in H.
  destruct (predict_reads_first clf req w) as [added Hadd].
  destruct (predict_emotion (Some clf) req w) as [r w']. cbn in Hadd.
  injection H as _ ->. apply (f_equal (@length event)) in Hadd.
  rewrite length_app in Hadd. cbn in Hadd. lia.
Qed.

(** The handle is set by the startup hook exactly when the cache directory
    could be made, the interface imported and the model constructed, in
    that order; the handle is then the constructed model. *)
Theorem load_model_sets_handle (cfg : Settings) (env : startup_env)
    (st : app_state) (c : classifier_t) :
  classifier (load_model cfg env st) = Some c <->
  (exists u, makedirs env (model_cache_dir cfg) = inr u) /\
  (exists u, import_interfaces env = inr u) /\
  foreign_class env
    "speechbrain/emotion-recognition-wav2vec2-IEMOCAP"
    "custom_interface.py"
    "CustomEncoderWav2vec2Classifier"
    (model_cache_dir cfg) = inr c.
Proof.
  unfold load_model, materialize.
  destruct (makedirs env (model_cache_dir cfg)) as [e | u]; cbn.
  { split; [discriminate | intros ([u Hu] & _); discriminate Hu]. }
  destruct (import_interfaces env) as [e | u']; cbn.
  { split; [discriminate | intros (_ & [u' Hu] & _); discriminate Hu]. }
  destruct (foreign_class env _ _ _ _) as [e | c']; cbn.
  { split; [discriminate | intros (_ & _ & Hc); discriminate Hc]. }
  split.
  - intros H. injection H as ->. eauto.
  - intros (_ & _ & Hc). injection Hc as ->. reflexivity.
Qed.

(** A failure of any step of the startup hook is not fatal: the hook
    returns, the handle is unset whatever it was before, the failure is the
    last line of the log, health still answers "healthy" with
    [model_loaded] false, and every predict call gets the 503. *)
Theorem startup_failure_is_not_fatal (cfg : Settings) (env : startup_env)
    (st : app_state) (e : py_error) (req : request) (w : world) :
  materialize cfg env = inl e ->
  let st' := load_model cfg env st in
  classifier st' = None /\
  app_log st' =
    (app_log st
     ++ [LogInfo "Loading SpeechBrain emotion recognition model...";
         LogError ("Failed to load model: " ++ err_msg e)])%list /\
  health_check st' =
    {| health_status := "healthy";
       health_model_loaded := false;
       health_service := "voice-emotion-recognition" |} /\
  post_predict (classifier st') req w =
    (error_response 503 model_not_loaded, w).
Proof.
  intros Hm. cbn zeta. unfold load_model. rewrite Hm.
  repeat split. cbn. rewrite <- List.app_assoc. reflexivity.
Qed.

(** The cache directory cannot be made: the model is not even asked for. *)
Lemma startup_failure_is_not_fatal_witness :
  let env :=
    {| makedirs := fun _ =>
         inl {| err_cls := "PermissionError";
                err_msg := "[Errno 13] Permission denied: '/app/models'" |};
       import_interfaces := inr tt;
       foreign_class := fun _ _ _ _ => inr (Scenario.returning Scenario.hap_batch) |} in
  let st' := load_model settings env
               {| classifier := Some (Scenario.returning Scenario.hap_batch);
                  app_log := [] |} in
  classifier st' = None /\
  post_predict (classifier st') Scenario.req1 Scenario.w0 =
    (error_response 503 model_not_loaded, Scenario.w0).
Proof.
  intros env st'.
  destruct (startup_failure_is_not_fatal settings env
              {| classifier := Some (Scenario.returning Scenario.hap_batch);
                 app_log := [] |}
              {| err_cls := "PermissionError";
                 err_msg := "[Errno 13] Permission denied: '/app/models'" |}
              Scenario.req1 Scenario.w0 eq_refl)
    as (Hnone & _ & _ & Hpredict).
  split; [exact Hnone | exact Hpredict].
Defined.

(** Before the startup hook has run, predict answers 503. *)
Lemma health_tells_predict_witness :
  post_predict (classifier initial_state) Scenario.req1 Scenario.w0 =
    (error_response 503 model_not_loaded, Scenario.w0).
Proof.
  apply (health_tells_predict initial_state Scenario.req1 Scenario.w0).
  reflexivity.
Defined.

(** A startup where every step succeeds. *)
Lemma load_model_sets_handle_witness :
  let env :=
    {| makedirs := fun _ => inr tt;
       import_interfaces := inr tt;
       foreign_class := fun _ _ _ _ => inr (Scenario.returning Scenario.hap_batch) |} in
  classifier (load_model settings env initial_state) =
    Some (Scenario.returning Scenario.hap_batch).
Proof.
  intros env.
  apply (load_model_sets_handle settings env initial_state
           (Scenario.returning Scenario.hap_batch)).
  split; [exists tt; reflexivity | split; [exists tt; reflexivity | reflexivity]].
Defined.
